(** * data-traceback: validation and stage attribution of [src/main.py]

    A shallow embedding of [load_data], [validate_data],
    [traceback_data_issues] and [main] with its stage list
    [operations_trace], with the pandas operations they call and the
    [logging] calls they make.

    - A cell of a DataFrame is a Python scalar: [int], [float] (IEEE binary64,
      NaN included), [bool], [str] or [None].
    - A DataFrame is its columns in order, each a label and a Series.  Column
      labels are unique, as [pd.read_csv] produces them; [getitem] takes the
      first column of a label.  On a frame with a repeated [age] label
      pandas hands back a DataFrame for [data['age']] and the test of line
      58 raises [ValueError]: the properties that state what is read from
      the [age] column assume unique labels, [NoDup (columns d)].
    - The DataFrame object that [data] refers to and the log file written by
      [logging] form the [world]; a Python function is a transformer of the
      world that returns a value or raises. *)

From Stdlib Require Import List String ZArith Bool Arith Lia.
From Corelib Require Import PrimFloat.
Import ListNotations.
Local Open Scope string_scope.
Local Open Scope list_scope.

Set Implicit Arguments.

(* ================================================================== *)
(** ** Python values, exceptions and the log *)
(* ================================================================== *)

Module Py.

(** The exception classes the program can meet.  [MissingDataError],
    [DataRangeError] and [DataFormatError] subclass [DataQualityError]
    (lines 18-28); [KeyError] and [TypeError] come from pandas;
    [OtherException] is any further subclass of [Exception] a stage
    function may raise, [OtherBaseException] one outside [Exception]
    (such as [KeyboardInterrupt]). *)
Inductive exc_class : Type :=
| MissingDataError
| DataRangeError
| DataFormatError
| KeyError
| TypeError
| OtherException (cls : string)
| OtherBaseException (cls : string).

(** [isinstance(e, DataQualityError)] *)
Definition is_DataQualityError (c : exc_class) : bool :=
  match c with
  | MissingDataError | DataRangeError | DataFormatError => true
  | _ => false
  end.

(** [isinstance(e, Exception)] *)
Definition is_Exception (c : exc_class) : bool :=
  match c with
  | OtherBaseException _ => false
  | _ => true
  end.

(** An exception object: its class and [str(e)]. *)
Record exn : Type := mk_exn { exc_type : exc_class; exc_str : string }.

(** The outcome of a call: a returned value or a raised exception. *)
Inductive result (A : Type) : Type :=
| Return (a : A)
| Raise (e : exn).
Arguments Return {A} a.
Arguments Raise {A} e.

Inductive level : Type := DEBUG | INFO | WARNING | ERROR.

(** An argument of a logging call: a string, or the dict of
    [Series.to_dict()] (keys in insertion order). *)
Inductive logarg : Type :=
| ArgStr (s : string)
| ArgDict (d : list (string * nat)).

(** A log record: level, format string and arguments, as [LogRecord]
    keeps them ([levelname], [msg], [args]). *)
Record log_record : Type :=
  mk_record { levelname : level; msg : string; args : list logarg }.

End Py.
Export Py.

(* ================================================================== *)
(** ** The pandas operations the program calls *)
(* ================================================================== *)

Module Pandas.

Inductive cell : Type :=
| CInt (z : Z)
| CFloat (f : float)
| CBool (b : bool)
| CText (s : string)
| CNull.

Definition Series : Type := list cell.
Definition DataFrame : Type := list (string * Series).

(** [pd.isnull(x)]: [None] and NaN. *)
Definition isnull (c : cell) : bool :=
  match c with
  | CNull => true
  | CFloat f => PrimFloat.is_nan f
  | _ => false
  end.

(** [data.isnull().values.any()] *)
Definition isnull_values_any (data : DataFrame) : bool :=
  existsb (fun col => existsb isnull (snd col)) data.

(** Number of nulls of a Series: one entry of [data.isnull().sum()]. *)
Definition null_count (s : Series) : nat := List.length (filter isnull s).

(** [data.isnull().sum()]: a Series of counts indexed by column label. *)
Definition isnull_sum (data : DataFrame) : list (string * nat) :=
  map (fun col => (fst col, null_count (snd col))) data.

(** [missing_info[missing_info > 0]] *)
Definition positive (missing_info : list (string * nat)) : list (string * nat) :=
  filter (fun e => (0 <? snd e)%nat) missing_info.

(** [d[k] = v] on a dict kept in insertion order. *)
Fixpoint dict_set (d : list (string * nat)) (k : string) (v : nat)
  : list (string * nat) :=
  match d with
  | [] => [(k, v)]
  | (k', v') :: rest =>
      if String.eqb k' k then (k', v) :: rest
      else (k', v') :: dict_set rest k v
  end.

(** [Series.to_dict()]: [dict(zip(index, values))]. *)
Definition to_dict (s : list (string * nat)) : list (string * nat) :=
  fold_left (fun d e => dict_set d (fst e) (snd e)) s [].

(** [data.columns] *)
Definition columns (data : DataFrame) : list string := map fst data.

(** [key in data.columns] *)
Definition contains (cols : list string) (key : string) : bool :=
  existsb (fun c => String.eqb c key) cols.

(** [data[key]]: the column, or [KeyError(key)], whose [str] is the
    [repr] of the key. *)
Fixpoint getitem (data : DataFrame) (key : string) : result Series :=
  match data with
  | [] => Raise (mk_exn KeyError ("'" ++ key ++ "'"))
  | (label, s) :: rest =>
      if String.eqb label key then Return s else getitem rest key
  end.

(** [x < 0] on one cell.  A null compares false, [True] and [False] are
    the integers 1 and 0, and a [str] against an [int] is a
    [TypeError]. *)
Definition cell_lt_zero (c : cell) : result bool :=
  match c with
  | CInt z => Return (z <? 0)%Z
  | CFloat f => Return (PrimFloat.ltb f PrimFloat.zero)
  | CBool _ => Return false
  | CNull => Return false
  | CText _ =>
      Raise (mk_exn TypeError
               "'<' not supported between instances of 'str' and 'int'")
  end.

(** [s < 0]: element-wise, raising at the first cell that raises. *)
Fixpoint lt_zero (s : Series) : result (list bool) :=
  match s with
  | [] => Return []
  | c :: rest =>
      match cell_lt_zero c with
      | Raise e => Raise e
      | Return b =>
          match lt_zero rest with
          | Raise e => Raise e
          | Return bs => Return (b :: bs)
          end
      end
  end.

(** [.any()] of a boolean Series, and the builtin [any]. *)
Definition any (bs : list bool) : bool := existsb (fun b => b) bs.

(** [isinstance(x, int)]; [bool] subclasses [int]. *)
Definition isinstance_int (c : cell) : bool :=
  match c with
  | CInt _ | CBool _ => true
  | _ => false
  end.

End Pandas.
Export Pandas.

(* ================================================================== *)
(** ** The world and the monad of Python calls *)
(* ================================================================== *)

(** The DataFrame object bound to [data] and the records written to
    [data_traceback.log]. *)
Record world : Type := mkw { frame : DataFrame; logfile : list log_record }.

Definition py (A : Type) : Type := world -> result A * world.

Definition ret {A} (a : A) : py A := fun w => (Return a, w).

Definition bind {A B} (m : py A) (k : A -> py B) : py B :=
  fun w =>
    match m w with
    | (Return a, w') => k a w'
    | (Raise e, w') => (Raise e, w')
    end.

Definition raise {A} (e : exn) : py A := fun w => (Raise e, w).

(** [try: body / except C as e: handler e]; an exception outside [C]
    passes through. *)
Definition try_except {A} (body : py A) (C : exc_class -> bool)
  (handler : exn -> py A) : py A :=
  fun w =>
    match body w with
    | (Return a, w') => (Return a, w')
    | (Raise e, w') =>
        if C (exc_type e) then handler e w' else (Raise e, w')
    end.

(** [logging.<level>(msg, *args)]: one record appended to the log file. *)
Definition logging (l : level) (m : string) (a : list logarg) : py unit :=
  fun w =>
    (Return tt, mkw (frame w) (logfile w ++ [mk_record l m a])).

(** A pandas expression over [data]: it reads the DataFrame and returns or
    raises. *)
Definition on_data {A} (f : DataFrame -> result A) : py A :=
  fun w => (f (frame w), w).

Declare Scope py_scope.
Delimit Scope py_scope with py.
Notation "x <- m ;; k" := (bind m (fun x => k))
  (at level 61, m at next level, right associativity) : py_scope.
Notation "m ;; k" := (bind m (fun _ => k))
  (at level 61, right associativity) : py_scope.
Local Open Scope py_scope.

(* ================================================================== *)
(** ** [validate_data] (lines 46-72) *)
(* ================================================================== *)

(** Line 58: ['age' in data.columns and (data['age'] < 0).any()]. *)
Definition age_below_zero (data : DataFrame) : result bool :=
  if contains (columns data) "age" then
    match getitem data "age" with
    | Raise e => Raise e
    | Return s =>
        match lt_zero s with
        | Raise e => Raise e
        | Return bs => Return (any bs)
        end
    end
  else Return false.

(** Line 64: [not all(isinstance(x, int) for x in data['age'])]. *)
Definition age_not_all_int (data : DataFrame) : result bool :=
  match getitem data "age" with
  | Raise e => Raise e
  | Return s => Return (negb (forallb isinstance_int s))
  end.

(** Line 53: [missing_info[missing_info > 0].to_dict()]. *)
Definition missing_columns (data : DataFrame) : list (string * nat) :=
  to_dict (positive (isnull_sum data)).

Definition validate_data : py unit :=
  try_except
    ( logging INFO "Validating for missing data." [] ;;
      missing <- on_data (fun data => Return (isnull_values_any data)) ;;
      (if missing then
         missing_info <- on_data (fun data => Return (missing_columns data)) ;;
         logging WARNING "Missing data found in columns: %s"
           [ArgDict missing_info] ;;
         raise (mk_exn MissingDataError "Missing data found.")
       else ret tt) ;;
      logging INFO "Checking for data range issues." [] ;;
      below <- on_data age_below_zero ;;
      (if below then
         logging WARNING "Invalid age values found." [] ;;
         raise (mk_exn DataRangeError "Invalid age values identified.")
       else ret tt) ;;
      logging INFO "Checking for data format issues." [] ;;
      bad <- on_data age_not_all_int ;;
      (if bad then
         logging WARNING "Non-integer values found in age column." [] ;;
         raise (mk_exn DataFormatError
                  "Non-integer values found in age column.")
       else ret tt) )
    is_DataQualityError
    (fun e =>
       logging ERROR "Data validation failed: %s" [ArgStr (exc_str e)] ;;
       raise e) ;;
  logging INFO "Data validation passed." [].

(* ================================================================== *)
(** ** [traceback_data_issues] (lines 75-90) *)
(* ================================================================== *)

(** One entry of [operation_trace]: [{'name': ..., 'function': ...}].  The
    function is applied to [data]; its outcome is the truth value the [if]
    of line 82 sees, or the exception raised on the way. *)
Record step : Type :=
  mk_step { name : string; function : DataFrame -> result bool }.

(** The [for] loop of lines 80-84; [Some n] is the [return step['name']]
    taken inside the loop, [None] the loop running to its end. *)
Fixpoint for_step (operation_trace : list step) : py (option string) :=
  match operation_trace with
  | [] => ret None
  | st :: rest =>
      logging INFO "Checking step: %s" [ArgStr (name st)] ;;
      hit <- on_data (function st) ;;
      if hit then
        logging INFO "Issue identified at step: %s" [ArgStr (name st)] ;;
        ret (Some (name st))
      else for_step rest
  end.

Definition traceback_data_issues (operation_trace : list step) : py string :=
  returned <-
    try_except
      ( logging INFO "Tracing back data issues through pipeline." [] ;;
        for_step operation_trace )
      is_Exception
      (fun e =>
         logging ERROR "Error during traceback: %s" [ArgStr (exc_str e)] ;;
         raise e) ;;
  match returned with
  | Some n => ret n
  | None =>
      logging INFO "No specific origin identified for the issues." [] ;;
      ret "Unknown origin"
  end.

(** The stage list of [main] (lines 100-104), entry by entry. *)
Definition data_load : step :=
  mk_step "Data Load" (fun d => Return (isnull_values_any d)).

Definition transformation_a : step :=
  mk_step "Transformation A"
    (fun d =>
       match getitem d "age" with
       | Raise e => Raise e
       | Return s =>
           match lt_zero s with
           | Raise e => Raise e
           | Return bs => Return (any bs)
           end
       end).

Definition transformation_b : step :=
  mk_step "Transformation B"
    (fun d =>
       match getitem d "age" with
       | Raise e => Raise e
       | Return s => Return (existsb (fun x => negb (isinstance_int x)) s)
       end).

Definition operations_trace : list step :=
  [data_load; transformation_a; transformation_b].

(* ================================================================== *)
(** ** Sample datasets *)
(* ================================================================== *)

(** [age = [25, -3, 40]] *)
Definition ages_negative : DataFrame :=
  [("age", [CInt 25; CInt (-3); CInt 40])].

(** [age = [25, None, 40]] *)
Definition ages_null : DataFrame :=
  [("age", [CInt 25; CNull; CInt 40])].

(** [age = ['abc']] *)
Definition ages_text : DataFrame := [("age", [CText "abc"])].

(** [height = [170, 182]], no [age] column *)
Definition no_age : DataFrame := [("height", [CInt 170; CInt 182])].

(** [name = ['ann', 'bob']], no [age] column *)
Definition names_only : DataFrame := [("name", [CText "ann"; CText "bob"])].

(** [age = [25, 40, -7]] *)
Definition ages_negative_last : DataFrame :=
  [("age", [CInt 25; CInt 40; CInt (-7)])].

(** [age = [25, None, 40]], [name = ['ann', None, None]],
    [city = ['x', 'y', 'z']] *)
Definition two_null_columns : DataFrame :=
  [ ("age", [CInt 25; CNull; CInt 40]);
    ("name", [CText "ann"; CNull; CNull]);
    ("city", [CText "x"; CText "y"; CText "z"]) ].

(** [age = [25, 31, 40]] *)
Definition ages_clean : DataFrame :=
  [("age", [CInt 25; CInt 31; CInt 40])].

(* ================================================================== *)
(** ** What the properties speak of *)
(* ================================================================== *)

(** Some cell of the dataset is null. *)
Definition null_cell (d : DataFrame) : Prop :=
  exists label s c, In (label, s) d /\ In c s /\ isnull c = true.

(** [s] is the column [data['age']]. *)
Definition age_column (d : DataFrame) (s : Series) : Prop :=
  getitem d "age" = Return s.

(** A number below the lower bound 0 of the age range. *)
Definition below_zerob (c : cell) : bool :=
  match c with
  | CInt z => (z <? 0)%Z
  | CFloat f => PrimFloat.ltb f PrimFloat.zero
  | _ => false
  end.

Definition below_zero (c : cell) : Prop := below_zerob c = true.

Definition is_textb (c : cell) : bool :=
  match c with CText _ => true | _ => false end.

Definition is_text (c : cell) : Prop := exists t, c = CText t.

(** The rows of a column whose value is below zero, with the value. *)
Fixpoint offending_from (i : nat) (s : Series) : list (nat * cell) :=
  match s with
  | [] => []
  | c :: rest =>
      if below_zerob c then (i, c) :: offending_from (S i) rest
      else offending_from (S i) rest
  end.

Definition offending_rows (s : Series) : list (nat * cell) :=
  offending_from 0 s.

(** The exceptions and records of [validate_data]. *)
Definition missing_error : exn := mk_exn MissingDataError "Missing data found.".
Definition range_error : exn :=
  mk_exn DataRangeError "Invalid age values identified.".
Definition format_error : exn :=
  mk_exn DataFormatError "Non-integer values found in age column.".
Definition key_error : exn := mk_exn KeyError "'age'".
Definition type_error : exn :=
  mk_exn TypeError "'<' not supported between instances of 'str' and 'int'".

Definition missing_start : log_record :=
  mk_record INFO "Validating for missing data." [].
Definition range_start : log_record :=
  mk_record INFO "Checking for data range issues." [].
Definition format_start : log_record :=
  mk_record INFO "Checking for data format issues." [].
Definition missing_warning (d : DataFrame) : log_record :=
  mk_record WARNING "Missing data found in columns: %s"
    [ArgDict (missing_columns d)].
Definition range_warning : log_record :=
  mk_record WARNING "Invalid age values found." [].
Definition format_warning : log_record :=
  mk_record WARNING "Non-integer values found in age column." [].
Definition failed (e : exn) : log_record :=
  mk_record ERROR "Data validation failed: %s" [ArgStr (exc_str e)].
Definition passed : log_record :=
  mk_record INFO "Data validation passed." [].

(** The records of [traceback_data_issues]. *)
Definition tracing : log_record :=
  mk_record INFO "Tracing back data issues through pipeline." [].
Definition checking (st : step) : log_record :=
  mk_record INFO "Checking step: %s" [ArgStr (name st)].
Definition identified (st : step) : log_record :=
  mk_record INFO "Issue identified at step: %s" [ArgStr (name st)].
Definition traceback_error (e : exn) : log_record :=
  mk_record ERROR "Error during traceback: %s" [ArgStr (exc_str e)].
Definition no_origin : log_record :=
  mk_record INFO "No specific origin identified for the issues." [].

(** The three ways the loop over the stages can go on a dataset: every
    function returns false; a function returns true after falses only; a
    function raises after falses only. *)
Definition no_match (d : DataFrame) (ops : list step) : Prop :=
  Forall (fun st => function st d = Return false) ops.

Definition first_match (d : DataFrame) (ops : list step)
  (before : list step) (st : step) : Prop :=
  (exists after, ops = before ++ st :: after) /\
  no_match d before /\ function st d = Return true.

Definition first_raise (d : DataFrame) (ops : list step)
  (before : list step) (st : step) (e : exn) : Prop :=
  (exists after, ops = before ++ st :: after) /\
  no_match d before /\ function st d = Raise e.

(** What [validate_data(data)] returns or raises when [data] is [d] and
    the log file holds [pre]. *)
Definition validate_outcome (d : DataFrame) (pre : list log_record)
  : result unit :=
  fst (validate_data (mkw d pre)).

(** What [traceback_data_issues(data, ops)] returns or raises. *)
Definition traceback_outcome (ops : list step) (d : DataFrame)
  (pre : list log_record) : result string :=
  fst (traceback_data_issues ops (mkw d pre)).

(** A call that leaves the DataFrame as it found it. *)
Definition frame_safe {A} (m : py A) : Prop :=
  forall w, frame (snd (m w)) = frame w.

(* ================================================================== *)
(** ** [load_data] (lines 31-43) *)
(* ================================================================== *)

(** [FileNotFoundError] and [pd.errors.ParserError], two subclasses of
    [Exception]. *)
Definition FileNotFoundError : exc_class := OtherException "FileNotFoundError".
Definition ParserError : exc_class := OtherException "ParserError".

(** [isinstance(e, FileNotFoundError)] *)
Definition is_FileNotFoundError (c : exc_class) : bool :=
  match c with
  | OtherException cls => String.eqb cls "FileNotFoundError"
  | _ => false
  end.

(** [isinstance(e, pd.errors.ParserError)] *)
Definition is_ParserError (c : exc_class) : bool :=
  match c with
  | OtherException cls => String.eqb cls "ParserError"
  | _ => false
  end.

(** A call into a library whose outcome is given: it returns or raises and
    leaves the world alone. *)
Definition call {A} (r : result A) : py A := fun w => (r, w).

(** [try: body / except C1 as e: h1 e / except C2 as e: h2 e]: the first
    clause that matches handles the exception; what a handler raises is not
    handled by the other clause. *)
Definition try_except2 {A} (body : py A)
  (C1 : exc_class -> bool) (h1 : exn -> py A)
  (C2 : exc_class -> bool) (h2 : exn -> py A) : py A :=
  fun w =>
    match body w with
    | (Return a, w') => (Return a, w')
    | (Raise e, w') =>
        if C1 (exc_type e) then h1 e w'
        else if C2 (exc_type e) then h2 e w'
        else (Raise e, w')
    end.

(** [read_csv] is what [pd.read_csv] answers for each path: the DataFrame
    parsed from the file, or the exception raised. *)
Definition load_data (read_csv : string -> result DataFrame)
  (file_path : string) : py DataFrame :=
  try_except2
    ( logging INFO "Attempting to load data from file: %s"
        [ArgStr file_path] ;;
      data <- call (read_csv file_path) ;;
      logging INFO "Data loaded successfully." [] ;;
      ret data )
    is_FileNotFoundError
    (fun e =>
       logging ERROR "File not found: %s" [ArgStr file_path] ;;
       raise e)
    is_ParserError
    (fun e =>
       logging ERROR "Parsing error loading data: %s" [ArgStr (exc_str e)] ;;
       raise (mk_exn DataFormatError
                "Error parsing data, check the file format.")).

(* ================================================================== *)
(** ** [main] (lines 93-112) *)
(* ================================================================== *)

(** [data = ...]: the name [data] is bound to a DataFrame object. *)
Definition assign_data (d : DataFrame) : py unit :=
  fun w => (Return tt, mkw d (logfile w)).

(** The [try] block of [main] (lines 96-108). *)
Definition main_body (read_csv : string -> result DataFrame) : py unit :=
  data <- load_data read_csv "data.csv" ;;
  assign_data data ;;
  validate_data ;;
  origin <- traceback_data_issues operations_trace ;;
  logging INFO "Data quality issue traced back to: %s" [ArgStr origin].

(** The process running [main]: the world of the calls and the lines
    printed on standard output. *)
Record process : Type := mkp { state : world; stdout : list string }.

(** [main()]: the [try] block, and the handler of lines 110-112 for a
    subclass of [Exception], which logs the error and prints it. *)
Definition main (read_csv : string -> result DataFrame)
  : process -> result unit * process :=
  fun p =>
    match main_body read_csv (state p) with
    | (Return _, w) => (Return tt, mkp w (stdout p))
    | (Raise e, w) =>
        if is_Exception (exc_type e) then
          (Return tt,
           mkp (snd (logging ERROR
                       "An error occurred in the data pipeline: %s"
                       [ArgStr (exc_str e)] w))
               (stdout p ++ [("An error occurred: " ++ exc_str e)%string]))
        else (Raise e, mkp w (stdout p))
    end.

(** The exception and records of [load_data] and [main]. *)
Definition parse_failure : exn :=
  mk_exn DataFormatError "Error parsing data, check the file format.".
Definition attempt (file_path : string) : log_record :=
  mk_record INFO "Attempting to load data from file: %s" [ArgStr file_path].
Definition loaded : log_record :=
  mk_record INFO "Data loaded successfully." [].
Definition file_not_found (file_path : string) : log_record :=
  mk_record ERROR "File not found: %s" [ArgStr file_path].
Definition parsing_error (e : exn) : log_record :=
  mk_record ERROR "Parsing error loading data: %s" [ArgStr (exc_str e)].
Definition traced_back (origin : string) : log_record :=
  mk_record INFO "Data quality issue traced back to: %s" [ArgStr origin].
Definition pipeline_error (e : exn) : log_record :=
  mk_record ERROR "An error occurred in the data pipeline: %s"
    [ArgStr (exc_str e)].

(** What [pd.read_csv] answers when the only file is [data.csv], holding
    the given DataFrame. *)
Definition only_file (d : DataFrame) (path : string) : result DataFrame :=
  if String.eqb path "data.csv" then Return d
  else Raise (mk_exn FileNotFoundError
                ("[Errno 2] No such file or directory: '" ++ path ++ "'")).

(** What it answers when there is no file at all. *)
Definition no_file (path : string) : result DataFrame :=
  Raise (mk_exn FileNotFoundError
           ("[Errno 2] No such file or directory: '" ++ path ++ "'")).

(** What it answers when every file is malformed. *)
Definition bad_file (path : string) : result DataFrame :=
  Raise (mk_exn ParserError "Error tokenizing data.").

(** The number of null cells of a dataset. *)
Definition null_cells (d : DataFrame) : nat :=
  List.length (filter isnull (List.concat (map snd d))).

(** [age = [25.0, 31.5]] *)
Definition ages_float : DataFrame :=
  [("age", [CFloat 25%float; CFloat 31.5%float])].

(* ================================================================== *)
(** ** The pandas operations *)
(* ================================================================== *)

Lemma isnull_values_any_true (d : DataFrame) :
  isnull_values_any d = true <-> null_cell d.
Proof.
  unfold isnull_values_any, null_cell. rewrite existsb_exists. split.
  - intros [[label s] [Hin Hs]]. simpl in Hs.
    apply existsb_exists in Hs. destruct Hs as [c [Hc Hn]].
    exists label, s, c. auto.
  - intros (label & s & c & Hin & Hc & Hn).
    exists (label, s). split; [assumption|].
    simpl. apply existsb_exists. exists c; auto.
Qed.

Lemma isnull_values_any_false (d : DataFrame) :
  isnull_values_any d = false <-> ~ null_cell d.
Proof.
  rewrite <- isnull_values_any_true.
  destruct (isnull_values_any d); split; congruence.
Qed.

Lemma lt_zero_eq (s : Series) :
  lt_zero s =
  if existsb is_textb s then Raise type_error else Return (map below_zerob s).
Proof.
  induction s as [|c s IH]; [reflexivity|].
  simpl. destruct c; simpl; try reflexivity;
    rewrite IH; destruct (existsb is_textb s); reflexivity.
Qed.

Lemma any_map {A} (f : A -> bool) (l : list A) :
  any (map f l) = existsb f l.
Proof.
  unfold any. induction l as [|a l IH]; simpl; [reflexivity|].
  now rewrite IH.
Qed.

Lemma contains_In (cols : list string) (key : string) :
  contains cols key = true <-> In key cols.
Proof.
  unfold contains. rewrite existsb_exists. split.
  - intros [c [Hin Heq]]. apply String.eqb_eq in Heq. now subst.
  - intros Hin. exists key. split; [assumption | apply String.eqb_refl].
Qed.

Lemma getitem_contains (d : DataFrame) (key : string) :
  if contains (columns d) key
  then exists s, getitem d key = Return s
  else getitem d key = Raise (mk_exn KeyError ("'" ++ key ++ "'")).
Proof.
  induction d as [|[label s] d IH]; simpl; [reflexivity|].
  destruct (String.eqb label key); simpl; [now exists s | exact IH].
Qed.

Lemma age_below_zero_eq (d : DataFrame) :
  age_below_zero d =
  match getitem d "age" with
  | Raise _ => Return false
  | Return s =>
      if existsb is_textb s then Raise type_error
      else Return (existsb below_zerob s)
  end.
Proof.
  unfold age_below_zero.
  pose proof (getitem_contains d "age") as H.
  destruct (contains (columns d) "age").
  - destruct H as [s ->]. rewrite lt_zero_eq.
    destruct (existsb is_textb s); [reflexivity|]. now rewrite any_map.
  - now rewrite H.
Qed.

Lemma age_not_all_int_eq (d : DataFrame) :
  age_not_all_int d =
  match getitem d "age" with
  | Raise _ => Raise key_error
  | Return s => Return (negb (forallb isinstance_int s))
  end.
Proof.
  unfold age_not_all_int.
  pose proof (getitem_contains d "age") as H.
  destruct (contains (columns d) "age").
  - now destruct H as [s ->].
  - now rewrite H.
Qed.

(* ================================================================== *)
(** ** One run of [validate_data] *)
(* ================================================================== *)

(** Every path through [validate_data], with the records it writes. *)
Lemma validate_data_run (d : DataFrame) (pre : list log_record) :
  validate_data (mkw d pre) =
  if isnull_values_any d then
    (Raise missing_error,
     mkw d (pre ++ [missing_start; missing_warning d; failed missing_error]))
  else
    match getitem d "age" with
    | Raise _ =>
        (Raise key_error,
         mkw d (pre ++ [missing_start; range_start; format_start]))
    | Return s =>
        if existsb is_textb s then
          (Raise type_error, mkw d (pre ++ [missing_start; range_start]))
        else if existsb below_zerob s then
          (Raise range_error,
           mkw d (pre ++ [missing_start; range_start; range_warning;
                          failed range_error]))
        else if forallb isinstance_int s then
          (Return tt,
           mkw d (pre ++ [missing_start; range_start; format_start; passed]))
        else
          (Raise format_error,
           mkw d (pre ++ [missing_start; range_start; format_start;
                          format_warning; failed format_error]))
    end.
Proof.
  unfold validate_data, try_except, bind, logging, on_data, ret, raise.
  cbn [frame logfile fst snd].
  destruct (isnull_values_any d).
  { cbn. now rewrite <- !app_assoc. }
  cbn [frame logfile]. rewrite age_below_zero_eq.
  destruct (getitem d "age") as [s|e] eqn:E; cbn.
  - destruct (existsb is_textb s); cbn; [now rewrite <- !app_assoc|].
    destruct (existsb below_zerob s); cbn; [now rewrite <- !app_assoc|].
    rewrite age_not_all_int_eq, E.
    destruct (forallb isinstance_int s); cbn; now rewrite <- !app_assoc.
  - rewrite age_not_all_int_eq, E. now rewrite <- !app_assoc.
Qed.

Example validate_clean :
  validate_data (mkw ages_clean []) =
  (Return tt, mkw ages_clean [missing_start; range_start; format_start; passed]).
Proof. reflexivity. Qed.

(* ================================================================== *)
(** ** One run of [traceback_data_issues] *)
(* ================================================================== *)

Lemma for_step_skip (d : DataFrame) (before rest : list step) :
  no_match d before ->
  forall pre,
    for_step (before ++ rest) (mkw d pre) =
    for_step rest (mkw d (pre ++ map checking before)).
Proof.
  induction 1 as [|st before Hst _ IH]; intros pre.
  - simpl. now rewrite app_nil_r.
  - simpl. unfold bind at 1, logging at 1. cbn [frame logfile].
    unfold bind at 1, on_data at 1. cbn [frame]. rewrite Hst.
    rewrite IH. now rewrite <- app_assoc.
Qed.

Lemma for_step_no_match (d : DataFrame) (ops : list step)
  (pre : list log_record) :
  no_match d ops ->
  for_step ops (mkw d pre) = (Return None, mkw d (pre ++ map checking ops)).
Proof.
  intros H. rewrite <- (app_nil_r ops) at 1.
  now rewrite for_step_skip.
Qed.

Lemma for_step_first_match (d : DataFrame) (ops before : list step)
  (st : step) (pre : list log_record) :
  first_match d ops before st ->
  for_step ops (mkw d pre) =
  (Return (Some (name st)),
   mkw d (pre ++ map checking before ++ [checking st; identified st])).
Proof.
  intros ([after ->] & Hno & Hst).
  rewrite for_step_skip by assumption.
  simpl. unfold bind, logging, on_data, ret. cbn [frame logfile].
  rewrite Hst. cbn [frame logfile]. now rewrite <- !app_assoc.
Qed.

Lemma for_step_first_raise (d : DataFrame) (ops before : list step)
  (st : step) (e : exn) (pre : list log_record) :
  first_raise d ops before st e ->
  for_step ops (mkw d pre) =
  (Raise e, mkw d (pre ++ map checking before ++ [checking st])).
Proof.
  intros ([after ->] & Hno & Hst).
  rewrite for_step_skip by assumption.
  simpl. unfold bind, logging, on_data. cbn [frame logfile].
  rewrite Hst. now rewrite <- !app_assoc.
Qed.

(** The loop goes exactly one of the three ways. *)
Lemma steps_outcome (d : DataFrame) (ops : list step) :
  no_match d ops \/
  (exists before st, first_match d ops before st) \/
  (exists before st e, first_raise d ops before st e).
Proof.
  induction ops as [|st ops IH].
  - left. constructor.
  - destruct (function st d) as [[|]|e] eqn:Hst.
    + right; left. exists [], st. repeat split; [now exists ops | constructor | assumption].
    + destruct IH as [Hno | [(before & st' & [after ->] & Hno & Hst') |
                              (before & st' & e & [after ->] & Hno & Hst')]].
      * left. now constructor.
      * right; left. exists (st :: before), st'.
        repeat split; [now exists after | now constructor | assumption].
      * right; right. exists (st :: before), st', e.
        repeat split; [now exists after | now constructor | assumption].
    + right; right. exists [], st, e.
      repeat split; [now exists ops | constructor | assumption].
Qed.

Lemma traceback_no_match (d : DataFrame) (ops : list step)
  (pre : list log_record) :
  no_match d ops ->
  traceback_data_issues ops (mkw d pre) =
  (Return "Unknown origin",
   mkw d (pre ++ tracing :: map checking ops ++ [no_origin])).
Proof.
  intros H. unfold traceback_data_issues, try_except.
  unfold bind at 1 2, logging at 1. cbn [frame logfile].
  rewrite for_step_no_match by assumption.
  unfold bind, logging, ret. cbn [frame logfile].
  now rewrite <- !app_assoc.
Qed.

Lemma traceback_first_match (d : DataFrame) (ops before : list step)
  (st : step) (pre : list log_record) :
  first_match d ops before st ->
  traceback_data_issues ops (mkw d pre) =
  (Return (name st),
   mkw d (pre ++ tracing :: map checking before ++
                 [checking st; identified st])).
Proof.
  intros H. unfold traceback_data_issues, try_except.
  unfold bind at 1 2, logging at 1. cbn [frame logfile].
  rewrite (for_step_first_match _ H).
  unfold ret. now rewrite <- !app_assoc.
Qed.

Lemma traceback_first_raise (d : DataFrame) (ops before : list step)
  (st : step) (e : exn) (pre : list log_record) :
  first_raise d ops before st e ->
  traceback_data_issues ops (mkw d pre) =
  (Raise e,
   mkw d (pre ++ tracing :: map checking before ++ checking st ::
                 (if is_Exception (exc_type e) then [traceback_error e]
                  else []))).
Proof.
  intros H. unfold traceback_data_issues, try_except.
  unfold bind at 1 2, logging at 1. cbn [frame logfile].
  rewrite (for_step_first_raise _ H).
  destruct (is_Exception (exc_type e)).
  - unfold bind, logging, raise. cbn [frame logfile].
    now rewrite <- !app_assoc.
  - now rewrite <- !app_assoc.
Qed.

Example trace_negative_age :
  traceback_data_issues operations_trace (mkw ages_negative []) =
  (Return "Transformation A",
   mkw ages_negative
     [ tracing;
       mk_record INFO "Checking step: %s" [ArgStr "Data Load"];
       mk_record INFO "Checking step: %s" [ArgStr "Transformation A"];
       mk_record INFO "Issue identified at step: %s"
         [ArgStr "Transformation A"] ]).
Proof. reflexivity. Qed.

(* ================================================================== *)
(** ** The dict of null counts *)
(* ================================================================== *)

Lemma dict_set_fresh (d : list (string * nat)) (k : string) (v : nat) :
  ~ In k (map fst d) -> dict_set d k v = d ++ [(k, v)].
Proof.
  induction d as [|[k' v'] d IH]; simpl; intros H; [reflexivity|].
  destruct (String.eqb k' k) eqn:E.
  - apply String.eqb_eq in E. tauto.
  - f_equal. apply IH. tauto.
Qed.

Lemma to_dict_fold (l acc : list (string * nat)) :
  NoDup (map fst (acc ++ l)) ->
  fold_left (fun d e => dict_set d (fst e) (snd e)) l acc = acc ++ l.
Proof.
  revert acc. induction l as [|[k v] l IH]; intros acc H; simpl.
  - now rewrite app_nil_r.
  - rewrite dict_set_fresh.
    + rewrite IH; rewrite <- app_assoc; [reflexivity | exact H].
    + rewrite map_app in H. simpl in H. apply NoDup_remove_2 in H.
      intros Hin. apply H. apply in_or_app. now left.
Qed.

(** With unique labels, [to_dict] keeps the Series as it is. *)
Lemma to_dict_unique (l : list (string * nat)) :
  NoDup (map fst l) -> to_dict l = l.
Proof. intros H. unfold to_dict. now rewrite to_dict_fold. Qed.

Lemma dict_set_keys (d : list (string * nat)) (k k' : string) (v : nat) :
  In k' (map fst (dict_set d k v)) <-> k' = k \/ In k' (map fst d).
Proof.
  induction d as [|[k0 v0] d IH]; simpl.
  - intuition.
  - destruct (String.eqb k0 k) eqn:E; simpl.
    + apply String.eqb_eq in E. subst. intuition.
    + rewrite IH. intuition.
Qed.

(** The keys of [to_dict] are the labels of the Series, unique or not. *)
Lemma to_dict_keys (l : list (string * nat)) (k : string) :
  In k (map fst (to_dict l)) <-> In k (map fst l).
Proof.
  unfold to_dict.
  assert (forall acc,
             In k (map fst (fold_left
                              (fun d e => dict_set d (fst e) (snd e)) l acc))
             <-> In k (map fst acc) \/ In k (map fst l)) as H.
  { induction l as [|[k0 v0] l IH]; intros acc; simpl.
    - intuition.
    - rewrite IH, dict_set_keys. intuition. }
  rewrite H. simpl. intuition.
Qed.

(** Dropping the zero counts keeps the labels unique. *)
Lemma positive_unique (counts : list (string * nat)) :
  NoDup (map fst counts) -> NoDup (map fst (positive counts)).
Proof.
  unfold positive.
  induction counts as [|[label n] counts IH]; simpl; intros H;
    [constructor|].
  apply NoDup_cons_iff in H. destruct H as [Hfresh Hrest].
  destruct (0 <? n)%nat; simpl; [|now apply IH].
  constructor; [|now apply IH].
  rewrite in_map_iff. intros [[label' n'] [Heq Hin]].
  simpl in Heq. subst label'. apply filter_In in Hin.
  apply Hfresh. apply in_map_iff. exists (label, n'). tauto.
Qed.

Lemma missing_columns_unique (d : DataFrame) :
  NoDup (columns d) -> missing_columns d = positive (isnull_sum d).
Proof.
  intros H. unfold missing_columns. apply to_dict_unique.
  apply positive_unique.
  unfold isnull_sum. rewrite map_map. exact H.
Qed.

Lemma null_count_pos (s : Series) :
  0 < null_count s <-> exists c, In c s /\ isnull c = true.
Proof.
  unfold null_count. induction s as [|c s IH]; simpl.
  - split; [lia | intros [? [[] _]]].
  - destruct (isnull c) eqn:E; simpl.
    + split; [|lia]. intros _. exists c. auto.
    + rewrite IH. split.
      * intros [c' [Hin Hn]]. exists c'. auto.
      * intros [c' [[->|Hin] Hn]]; [congruence|]. exists c'. auto.
Qed.

Lemma In_positive_isnull_sum (d : DataFrame) (label : string) (n : nat) :
  In (label, n) (positive (isnull_sum d)) <->
  exists s, In (label, s) d /\ null_count s = n /\ 0 < n.
Proof.
  unfold positive, isnull_sum. rewrite filter_In, in_map_iff. simpl.
  rewrite Nat.ltb_lt. split.
  - intros [[[label' s] [Heq Hin]] Hpos]. simpl in Heq.
    injection Heq as -> <-. exists s. auto.
  - intros [s (Hin & <- & Hpos)]. split; [|assumption].
    exists (label, s). auto.
Qed.

(* ================================================================== *)
(** ** Outcomes of [validate_data] *)
(* ================================================================== *)

Lemma existsb_false {A} (f : A -> bool) (l : list A) :
  existsb f l = false <-> forall a, In a l -> f a = false.
Proof.
  induction l as [|a l IH]; simpl.
  - split; [intros _ ? [] | reflexivity].
  - rewrite orb_false_iff, IH. split.
    + intros [Ha Hl] b [<-|Hb]; auto.
    + intros H. split; auto.
Qed.

Lemma is_textb_false (c : cell) : is_textb c = false <-> ~ is_text c.
Proof.
  unfold is_text. destruct c; simpl; split; try congruence;
    try (intros _ [t Ht]; discriminate).
  intros H. exfalso. apply H. now exists s.
Qed.

Lemma no_text_iff (s : Series) :
  existsb is_textb s = false <-> forall c, In c s -> ~ is_text c.
Proof.
  rewrite existsb_false. split; intros H c Hc; apply is_textb_false; auto.
Qed.

Lemma none_below_zero_iff (s : Series) :
  existsb below_zerob s = false <-> forall c, In c s -> ~ below_zero c.
Proof.
  rewrite existsb_false. unfold below_zero.
  split; intros H c Hc; specialize (H c Hc);
    destruct (below_zerob c); congruence.
Qed.

Lemma isinstance_int_not_text (c : cell) :
  isinstance_int c = true -> is_textb c = false.
Proof. destruct c; simpl; congruence. Qed.

(** [validate_data] writes to the log file only, and what it returns and
    writes does not depend on what the file already holds. *)
Lemma validate_data_appends (d : DataFrame) :
  exists r written,
    forall pre, validate_data (mkw d pre) = (r, mkw d (pre ++ written)).
Proof.
  destruct (isnull_values_any d) eqn:E1.
  { do 2 eexists. intros pre. rewrite validate_data_run, E1. reflexivity. }
  destruct (getitem d "age") as [s|e] eqn:E2.
  2: { do 2 eexists. intros pre. rewrite validate_data_run, E1, E2.
       reflexivity. }
  destruct (existsb is_textb s) eqn:E3.
  { do 2 eexists. intros pre. rewrite validate_data_run, E1, E2, E3.
    reflexivity. }
  destruct (existsb below_zerob s) eqn:E4.
  { do 2 eexists. intros pre. rewrite validate_data_run, E1, E2, E3, E4.
    reflexivity. }
  destruct (forallb isinstance_int s) eqn:E5;
    do 2 eexists; intros pre;
    rewrite validate_data_run, E1, E2, E3, E4, E5; reflexivity.
Qed.

(** [validate_data] returns exactly on the datasets without a null cell
    whose [age] column holds only integers that are not below zero. *)
Lemma validate_passes_iff (d : DataFrame) (pre : list log_record) :
  validate_outcome d pre = Return tt <->
  ~ null_cell d /\
  exists s, age_column d s /\
            forall c, In c s -> isinstance_int c = true /\ ~ below_zero c.
Proof.
  unfold validate_outcome, age_column.
  rewrite validate_data_run, <- isnull_values_any_false.
  destruct (isnull_values_any d); [split; [discriminate | intros [? _]; discriminate]|].
  destruct (getitem d "age") as [s|e].
  2: { split; [discriminate | intros [_ [s [? _]]]; discriminate]. }
  destruct (existsb is_textb s) eqn:E3.
  { split; [discriminate|]. intros [_ [s' [[= <-] H]]].
    apply existsb_exists in E3. destruct E3 as [c [Hc Ht]].
    destruct (H c Hc) as [Hi _].
    apply isinstance_int_not_text in Hi. congruence. }
  destruct (existsb below_zerob s) eqn:E4.
  { split; [discriminate|]. intros [_ [s' [[= <-] H]]].
    apply existsb_exists in E4. destruct E4 as [c [Hc Hb]].
    destruct (H c Hc) as [_ Hn]. now elim Hn. }
  destruct (forallb isinstance_int s) eqn:E5; cbn.
  - split; [intros _ | reflexivity]. split; [reflexivity|].
    exists s. split; [reflexivity|]. intros c Hc. split.
    + rewrite forallb_forall in E5. auto.
    + rewrite none_below_zero_iff in E4. auto.
  - split; [discriminate|]. intros [_ [s' [[= <-] H]]].
    assert (forallb isinstance_int s = true) as F
        by (apply forallb_forall; intros c Hc; apply H; assumption).
    congruence.
Qed.

(* ================================================================== *)
(** ** Properties of [validate_data] *)
(* ================================================================== *)

(** C1, at the input where it fails.  The dataset [height = [170, 182]] has
    no null cell and no [age] column, hence no age below zero and no age of
    the wrong type; [validate_data] does not complete on it: after the three
    checks have started, [data['age']] of line 64 raises [KeyError]. *)
Theorem validate_without_age_column :
  ~ null_cell no_age /\
  contains (columns no_age) "age" = false /\
  validate_data (mkw no_age []) =
  (Raise key_error, mkw no_age [missing_start; range_start; format_start]).
Proof.
  split; [|split; reflexivity].
  apply isnull_values_any_false. reflexivity.
Qed.

(** X1.  A dataset with unique column labels and without a null cell whose
    [age] column holds only integers that are not below zero passes: the
    call returns after the three checks and the closing record. *)
Theorem clean_dataset_passes
  (d : DataFrame) (s : Series) (pre : list log_record) :
  NoDup (columns d) ->
  ~ null_cell d ->
  age_column d s ->
  (forall c, In c s -> isinstance_int c = true /\ ~ below_zero c) ->
  validate_data (mkw d pre) =
  (Return tt,
   mkw d (pre ++ [missing_start; range_start; format_start; passed])).
Proof.
  intros _ Hn Hs Hc. apply isnull_values_any_false in Hn.
  assert (existsb is_textb s = false) as Ht.
  { apply existsb_false. intros c Hin.
    apply isinstance_int_not_text. now apply Hc. }
  assert (existsb below_zerob s = false) as Hb
      by (apply none_below_zero_iff; intros c Hin; now apply Hc).
  assert (forallb isinstance_int s = true) as Hi
      by (apply forallb_forall; intros c Hin; now apply Hc).
  unfold age_column in Hs.
  now rewrite validate_data_run, Hn, Hs, Ht, Hb, Hi.
Qed.

Lemma ages_clean_passes :
  validate_data (mkw ages_clean []) =
  (Return tt,
   mkw ages_clean
     ([] ++ [missing_start; range_start; format_start; passed])).
Proof.
  apply (@clean_dataset_passes ages_clean [CInt 25; CInt 31; CInt 40]).
  - simpl. repeat constructor. simpl. tauto.
  - apply isnull_values_any_false. reflexivity.
  - reflexivity.
  - intros c [<-|[<-|[<-|[]]]]; split; try reflexivity; discriminate.
Defined.

(** C3, as stated, fails: on [age = [25, None, 40]] the missing-data
    finding is raised as a [MissingDataError], a [DataQualityError], and
    not returned. *)
Lemma validate_raises_missing_data :
  validate_outcome ages_null [] = Raise missing_error /\
  is_DataQualityError (exc_type missing_error) = true.
Proof. split; reflexivity. Qed.

(** C3, amended.  [validate_data] reports a finding by raising it, after
    logging it, and never returns one.  A null cell raises
    [MissingDataError] after the warning with the dict of null counts and
    the failure record.  On a dataset with unique column labels and without
    nulls: a value below zero in an [age] column free of text raises
    [DataRangeError] after its warning and failure record; with no text and
    no value below zero, an age that is not an [int] raises
    [DataFormatError] after its warning and failure record; and a call that
    returns, returns [None], has logged no warning and no failure, and ran
    on a dataset with none of the three findings. *)
Theorem findings_are_raised (d : DataFrame) (pre : list log_record) :
  (null_cell d ->
   validate_data (mkw d pre) =
   (Raise missing_error,
    mkw d (pre ++ [missing_start; missing_warning d;
                   failed missing_error]))) /\
  (NoDup (columns d) ->
   (forall s,
       ~ null_cell d -> age_column d s ->
       (forall c, In c s -> ~ is_text c) ->
       (exists c, In c s /\ below_zero c) ->
       validate_data (mkw d pre) =
       (Raise range_error,
        mkw d (pre ++ [missing_start; range_start; range_warning;
                       failed range_error]))) /\
   (forall s,
       ~ null_cell d -> age_column d s ->
       (forall c, In c s -> ~ is_text c /\ ~ below_zero c) ->
       (exists c, In c s /\ isinstance_int c = false) ->
       validate_data (mkw d pre) =
       (Raise format_error,
        mkw d (pre ++ [missing_start; range_start; format_start;
                       format_warning; failed format_error]))) /\
   (forall v,
       validate_outcome d pre = Return v ->
       v = tt /\ ~ null_cell d /\
       (exists s, age_column d s /\
                  forall c, In c s ->
                            isinstance_int c = true /\ ~ below_zero c) /\
       validate_data (mkw d pre) =
       (Return tt,
        mkw d (pre ++ [missing_start; range_start; format_start;
                       passed])))).
Proof.
  split.
  { intros H. apply isnull_values_any_true in H.
    now rewrite validate_data_run, H. }
  intros _. split; [|split].
  - intros s Hn Hs Ht [c [Hc Hb]].
    apply isnull_values_any_false in Hn. apply no_text_iff in Ht.
    unfold age_column in Hs. rewrite validate_data_run, Hn, Hs, Ht.
    replace (existsb below_zerob s) with true; [reflexivity|].
    symmetry. apply existsb_exists. now exists c.
  - intros s Hn Hs Hc [c [Hin Hi]].
    apply isnull_values_any_false in Hn.
    assert (existsb is_textb s = false) as Ht
        by (apply no_text_iff; intros x Hx; now apply Hc).
    assert (existsb below_zerob s = false) as Hb
        by (apply none_below_zero_iff; intros x Hx; now apply Hc).
    unfold age_column in Hs. rewrite validate_data_run, Hn, Hs, Ht, Hb.
    destruct (forallb isinstance_int s) eqn:E; [|reflexivity].
    rewrite forallb_forall in E. specialize (E c Hin). congruence.
  - intros v Hv. destruct v.
    pose proof (proj1 (validate_passes_iff d pre) Hv) as [Hn [s [Hs Hc]]].
    split; [reflexivity|]. split; [assumption|].
    split; [now exists s|].
    apply isnull_values_any_false in Hn.
    assert (existsb is_textb s = false) as Ht.
    { apply existsb_false. intros c Hin.
      apply isinstance_int_not_text. now apply Hc. }
    assert (existsb below_zerob s = false) as Hb
        by (apply none_below_zero_iff; intros c Hin; now apply Hc).
    assert (forallb isinstance_int s = true) as Hi
        by (apply forallb_forall; intros c Hin; now apply Hc).
    unfold age_column in Hs.
    now rewrite validate_data_run, Hn, Hs, Ht, Hb, Hi.
Qed.

(** [age = [25.0, 31.5]] has unique labels, no null, no text and no value
    below zero, and holds floats: [DataFormatError], after the warning and
    the failure record. *)
Lemma float_ages_are_raised :
  validate_data (mkw ages_float []) =
  (Raise format_error,
   mkw ages_float
     ([] ++ [missing_start; range_start; format_start; format_warning;
             failed format_error])).
Proof.
  refine (proj1 (proj2 (proj2 (findings_are_raised ages_float []) _))
            [CFloat 25%float; CFloat 31.5%float] _ _ _ _).
  - simpl. repeat constructor. simpl. tauto.
  - apply isnull_values_any_false. reflexivity.
  - reflexivity.
  - intros c [<-|[<-|[]]]; split;
      try (intros [t Ht]; discriminate); unfold below_zero;
      now vm_compute.
  - exists (CFloat 25%float). split; [now left | reflexivity].
Defined.

(** C5.  On a dataset with at least one null cell, [validate_data] raises
    [MissingDataError] after a warning whose dict has as keys exactly the
    labels of the columns with a null; with unique column labels, each key
    comes with the number of nulls of its column. *)
Theorem missing_data_reports_null_columns
  (d : DataFrame) (pre : list log_record) :
  null_cell d ->
  exists report,
    validate_data (mkw d pre) =
    (Raise missing_error,
     mkw d (pre ++ [ missing_start;
                     mk_record WARNING "Missing data found in columns: %s"
                       [ArgDict report];
                     failed missing_error ])) /\
    (forall label,
        In label (map fst report) <->
        exists s, In (label, s) d /\ exists c, In c s /\ isnull c = true) /\
    (NoDup (columns d) ->
     forall label n,
       In (label, n) report <->
       exists s, In (label, s) d /\ null_count s = n /\ 0 < n).
Proof.
  intros Hn. exists (missing_columns d).
  apply isnull_values_any_true in Hn.
  rewrite validate_data_run, Hn. split; [reflexivity|]. split.
  - intros label. unfold missing_columns.
    rewrite to_dict_keys, in_map_iff. split.
    + intros [[label' n] [<- Hin]]. simpl.
      apply In_positive_isnull_sum in Hin.
      destruct Hin as [s (Hin & Hc & Hpos)]. exists s. split; [assumption|].
      apply null_count_pos. lia.
    + intros [s [Hin Hc]]. apply null_count_pos in Hc.
      exists (label, null_count s). split; [reflexivity|].
      apply In_positive_isnull_sum. exists s. auto.
  - intros Hu label n. rewrite (missing_columns_unique d Hu).
    apply In_positive_isnull_sum.
Qed.

Lemma two_null_columns_report :
  null_cell two_null_columns /\
  NoDup (columns two_null_columns) /\
  exists report,
    validate_data (mkw two_null_columns []) =
    (Raise missing_error,
     mkw two_null_columns
       ([] ++ [ missing_start;
                mk_record WARNING "Missing data found in columns: %s"
                  [ArgDict report];
                failed missing_error ])) /\
    (forall label,
        In label (map fst report) <->
        exists s, In (label, s) two_null_columns /\
                  exists c, In c s /\ isnull c = true) /\
    (NoDup (columns two_null_columns) ->
     forall label n,
       In (label, n) report <->
       exists s, In (label, s) two_null_columns /\
                 null_count s = n /\ 0 < n).
Proof.
  assert (null_cell two_null_columns) as Hn.
  { apply isnull_values_any_true. reflexivity. }
  split; [exact Hn|]. split.
  - simpl. repeat constructor; simpl; intuition discriminate.
  - exact (missing_data_reports_null_columns [] Hn).
Defined.

Example two_null_columns_dict :
  missing_columns two_null_columns = [("age", 1); ("name", 2)].
Proof. reflexivity. Qed.

(** C6.  [validate_data] stops at the first check that finds a violation.
    When it raises a [DataQualityError], the records it wrote are the start
    records of the checks up to the failing one, in order, then one warning
    and the failure record: no later check was started, and one violation
    is reported.  A null cell is reported as [MissingDataError] whatever the
    later checks would find. *)
Theorem validation_stops_at_first_violation
  (d : DataFrame) (pre : list log_record) (e : exn) (w' : world) :
  validate_data (mkw d pre) = (Raise e, w') ->
  is_DataQualityError (exc_type e) = true ->
  (null_cell d -> e = missing_error) /\
  exists started warning,
    w' = mkw d (pre ++ started ++ [warning; failed e]) /\
    levelname warning = WARNING /\
    ( (e = missing_error /\ started = [missing_start]) \/
      (e = range_error /\ started = [missing_start; range_start]) \/
      (e = format_error /\
       started = [missing_start; range_start; format_start]) ).
Proof.
  rewrite validate_data_run, <- isnull_values_any_true.
  destruct (isnull_values_any d).
  { intros [= <- <-] _. split; [reflexivity|].
    exists [missing_start], (missing_warning d). repeat split; auto. }
  destruct (getitem d "age") as [s|e0]; [|intros [= <- <-]; discriminate].
  destruct (existsb is_textb s); [intros [= <- <-]; discriminate|].
  destruct (existsb below_zerob s).
  { intros [= <- <-] _. split; [discriminate|].
    exists [missing_start; range_start], range_warning.
    repeat split; auto. }
  destruct (forallb isinstance_int s); [discriminate|].
  intros [= <- <-] _. split; [discriminate|].
  exists [missing_start; range_start; format_start], format_warning.
  repeat split; auto.
Qed.

(** [age = [25, None, 40]]: the null fails the format check as well
    ([None] is not an [int]), and only the missing data is reported. *)
Lemma null_age_reports_missing_only :
  existsb (fun x => negb (isinstance_int x)) [CInt 25; CNull; CInt 40] = true /\
  validate_data (mkw ages_null []) =
  (Raise missing_error,
   mkw ages_null
     [ missing_start;
       mk_record WARNING "Missing data found in columns: %s"
         [ArgDict [("age", 1)]];
       failed missing_error ]) /\
  (null_cell ages_null -> missing_error = missing_error) /\
  exists started warning,
    mkw ages_null
      [ missing_start;
        mk_record WARNING "Missing data found in columns: %s"
          [ArgDict [("age", 1)]];
        failed missing_error ] =
    mkw ages_null ([] ++ started ++ [warning; failed missing_error]) /\
    levelname warning = WARNING /\
    ( (missing_error = missing_error /\ started = [missing_start]) \/
      (missing_error = range_error /\
       started = [missing_start; range_start]) \/
      (missing_error = format_error /\
       started = [missing_start; range_start; format_start]) ).
Proof.
  split; [reflexivity|]. split; [reflexivity|].
  apply (@validation_stops_at_first_violation ages_null [] missing_error);
    reflexivity.
Defined.

(** C7, as stated, fails: the violation names no row and no value.
    [age = [25, -3, 40]] and [age = [25, 40, -7]] raise the same exception
    after the same records, though the offending row is 1 with value -3 in
    the first and 2 with value -7 in the second. *)
Lemma range_violation_names_no_row :
  validate_data (mkw ages_negative []) =
  (Raise (mk_exn DataRangeError "Invalid age values identified."),
   mkw ages_negative
     [ mk_record INFO "Validating for missing data." [];
       mk_record INFO "Checking for data range issues." [];
       mk_record WARNING "Invalid age values found." [];
       mk_record ERROR "Data validation failed: %s"
         [ArgStr "Invalid age values identified."] ]) /\
  validate_data (mkw ages_negative_last []) =
  (Raise (mk_exn DataRangeError "Invalid age values identified."),
   mkw ages_negative_last
     [ mk_record INFO "Validating for missing data." [];
       mk_record INFO "Checking for data range issues." [];
       mk_record WARNING "Invalid age values found." [];
       mk_record ERROR "Data validation failed: %s"
         [ArgStr "Invalid age values identified."] ]) /\
  offending_rows [CInt 25; CInt (-3); CInt 40] = [(1, CInt (-3))] /\
  offending_rows [CInt 25; CInt 40; CInt (-7)] = [(2, CInt (-7))].
Proof. repeat split; reflexivity. Qed.

(** C7, amended.  On a dataset with unique column labels, [validate_data]
    raises [DataRangeError] exactly when the dataset has no null cell and
    its [age] column, free of text, holds a value below zero at some row;
    there is no upper bound.  The violation is the fixed warning and
    message, without row indices or values. *)
Theorem range_rule_age (d : DataFrame) (pre : list log_record) :
  NoDup (columns d) ->
  (validate_outcome d pre = Raise range_error <->
   ~ null_cell d /\
   exists s, age_column d s /\
             (forall c, In c s -> ~ is_text c) /\
             exists i c, nth_error s i = Some c /\ below_zero c) /\
  (validate_outcome d pre = Raise range_error ->
   validate_data (mkw d pre) =
   (Raise range_error,
    mkw d (pre ++ [missing_start; range_start; range_warning;
                   failed range_error]))).
Proof.
  intros _. unfold validate_outcome, age_column.
  rewrite validate_data_run, <- isnull_values_any_false.
  destruct (isnull_values_any d).
  { split; [split|]; [discriminate | intros [? _] | ]; discriminate. }
  destruct (getitem d "age") as [s|e].
  2: { split; [split|]; [discriminate | intros [_ [s [? _]]] | ];
       discriminate. }
  destruct (existsb is_textb s) eqn:E3.
  { split; [split|]; try discriminate.
    intros [_ [s' [[= <-] [H _]]]]. apply no_text_iff in H. congruence. }
  destruct (existsb below_zerob s) eqn:E4.
  - split; [split|]; try reflexivity. intros _. split; [reflexivity|].
    exists s. split; [reflexivity|]. split; [now apply no_text_iff|].
    apply existsb_exists in E4. destruct E4 as [c [Hc Hb]].
    apply In_nth_error in Hc. destruct Hc as [i Hi]. now exists i, c.
  - assert ((exists i c, nth_error s i = Some c /\ below_zero c) -> False)
      as Hnone.
    { intros [i [c [Hi Hb]]]. apply nth_error_In in Hi.
      rewrite none_below_zero_iff in E4. now apply (E4 c). }
    destruct (forallb isinstance_int s); cbn;
      (split; [split|]; try discriminate;
       intros [_ [s' [[= <-] [_ H]]]]; now elim Hnone).
Qed.

Lemma range_rule_age_example :
  validate_outcome ages_negative [] = Raise range_error.
Proof.
  assert (NoDup (columns ages_negative)) as Hu
      by (simpl; repeat constructor; simpl; tauto).
  apply (proj1 (@range_rule_age ages_negative [] Hu)).
  split.
  - apply isnull_values_any_false. reflexivity.
  - exists [CInt 25; CInt (-3); CInt 40]. split; [reflexivity|]. split.
    + intros c [<-|[<-|[<-|[]]]] [t Ht]; discriminate.
    + exists 1, (CInt (-3)). split; reflexivity.
Defined.

(** C8.  On a dataset without a null cell and without a column [age],
    [validate_data] raises [KeyError('age')] from line 64: the three checks
    have started, no warning and no failure record is written, and the
    exception is no [DataQualityError]. *)
Theorem validate_key_error (d : DataFrame) (pre : list log_record) :
  ~ null_cell d ->
  ~ In "age" (columns d) ->
  validate_data (mkw d pre) =
  (Raise key_error, mkw d (pre ++ [missing_start; range_start; format_start]))
  /\ exc_type key_error = KeyError
  /\ is_DataQualityError (exc_type key_error) = false.
Proof.
  intros Hn Ha. apply isnull_values_any_false in Hn.
  rewrite <- contains_In in Ha.
  pose proof (getitem_contains d "age") as Hg.
  destruct (contains (columns d) "age"); [congruence|].
  rewrite validate_data_run, Hn, Hg. repeat split; reflexivity.
Qed.

Lemma names_only_key_error :
  validate_data (mkw names_only []) =
  (Raise key_error,
   mkw names_only ([] ++ [missing_start; range_start; format_start]))
  /\ exc_type key_error = KeyError
  /\ is_DataQualityError (exc_type key_error) = false.
Proof.
  apply validate_key_error.
  - apply isnull_values_any_false. reflexivity.
  - simpl. intros [H|[]]. discriminate.
Defined.

(** C9.  A second call of [validate_data] on the same dataset returns or
    raises what the first did and writes the same records again. *)
Theorem validate_data_twice (w : world) :
  fst (validate_data (snd (validate_data w))) = fst (validate_data w) /\
  frame (snd (validate_data w)) = frame w /\
  exists written,
    logfile (snd (validate_data w)) = logfile w ++ written /\
    logfile (snd (validate_data (snd (validate_data w)))) =
    (logfile w ++ written) ++ written.
Proof.
  destruct w as [d pre].
  destruct (validate_data_appends d) as (r & written & H).
  rewrite H. cbn [fst snd]. rewrite H. cbn [fst snd frame logfile].
  split; [reflexivity|]. split; [reflexivity|].
  exists written. split; reflexivity.
Qed.

(* ================================================================== *)
(** ** Properties of [traceback_data_issues] *)
(* ================================================================== *)

(** With the stages of [main]: without nulls, an [age] column free of text
    with a value below zero is traced to "Transformation A". *)
Lemma main_trace_negative_age (d : DataFrame) (s : Series)
  (pre : list log_record) :
  ~ null_cell d -> age_column d s ->
  (forall c, In c s -> ~ is_text c) ->
  (exists c, In c s /\ below_zero c) ->
  traceback_outcome operations_trace d pre = Return "Transformation A".
Proof.
  intros Hn Hs Ht [c [Hc Hb]]. unfold traceback_outcome.
  apply isnull_values_any_false in Hn. apply no_text_iff in Ht.
  rewrite traceback_first_match
    with (before := [data_load]) (st := transformation_a); [reflexivity|].
  split; [eexists; reflexivity|]. split.
  - constructor; [|constructor]. simpl. now rewrite Hn.
  - simpl. unfold age_column in Hs. rewrite Hs, lt_zero_eq, Ht, any_map.
    f_equal. apply existsb_exists. now exists c.
Qed.

(** C2, as stated, fails when a stage function raises.  On the dataset
    [height = [170, 182]] no function of [operations_trace] returns true,
    and the call raises [KeyError] instead of returning "Unknown origin".
    On [age = ['abc']] the function of "Transformation B" returns true and
    no earlier one does, and the call raises [TypeError] instead of
    returning "Transformation B". *)
Lemma trace_raises_without_answer :
  map (fun st => (name st, function st no_age)) operations_trace =
  [ ("Data Load", Return false);
    ("Transformation A", Raise key_error);
    ("Transformation B", Raise key_error) ] /\
  traceback_outcome operations_trace no_age [] = Raise key_error /\
  map (fun st => (name st, function st ages_text)) operations_trace =
  [ ("Data Load", Return false);
    ("Transformation A", Raise type_error);
    ("Transformation B", Return true) ] /\
  traceback_outcome operations_trace ages_text [] = Raise type_error.
Proof. repeat split; reflexivity. Qed.

(** C2, amended.  On every dataset the stage functions go one of three
    ways, and [traceback_data_issues] answers accordingly: all return false
    and it returns "Unknown origin"; one returns true after falses only
    and it returns the name of that stage, the earliest whose function is
    true; one raises after falses only and it raises that exception.  It
    returns "Unknown origin" only if no function returns true or the first
    matching stage bears that name. *)
Theorem traceback_returns_first_match
  (d : DataFrame) (ops : list step) (pre : list log_record) :
  (no_match d ops \/
   (exists before st, first_match d ops before st) \/
   (exists before st e, first_raise d ops before st e)) /\
  (no_match d ops ->
   traceback_outcome ops d pre = Return "Unknown origin") /\
  (forall before st,
      first_match d ops before st ->
      traceback_outcome ops d pre = Return (name st)) /\
  (forall before st e,
      first_raise d ops before st e ->
      traceback_outcome ops d pre = Raise e) /\
  (forall n,
      traceback_outcome ops d pre = Return n ->
      (n = "Unknown origin" /\ no_match d ops) \/
      (exists before st, first_match d ops before st /\ name st = n)).
Proof.
  assert (forall before st,
             first_match d ops before st ->
             traceback_outcome ops d pre = Return (name st)) as Hm.
  { intros before st H. unfold traceback_outcome.
    now rewrite (traceback_first_match pre H). }
  assert (forall before st e,
             first_raise d ops before st e ->
             traceback_outcome ops d pre = Raise e) as Hr.
  { intros before st e H. unfold traceback_outcome.
    now rewrite (traceback_first_raise pre H). }
  assert (no_match d ops ->
          traceback_outcome ops d pre = Return "Unknown origin") as Hn.
  { intros H. unfold traceback_outcome.
    now rewrite (traceback_no_match pre H). }
  split; [apply steps_outcome|]. repeat split; try assumption.
  intros n Hret.
  destruct (steps_outcome d ops)
    as [H | [(before & st & H) | (before & st & e & H)]].
  - left. rewrite (Hn H) in Hret. injection Hret as <-. auto.
  - right. rewrite (Hm _ _ H) in Hret. injection Hret as <-.
    now exists before, st.
  - rewrite (Hr _ _ _ H) in Hret. discriminate.
Qed.

(** With the stages of [main], [age = [25, -3, 40]] is traced to
    "Transformation A". *)
Lemma trace_negative_age_first_match :
  traceback_outcome operations_trace ages_negative [] =
  Return "Transformation A".
Proof.
  refine (proj1 (proj2 (proj2
            (traceback_returns_first_match ages_negative operations_trace [])))
            [data_load] transformation_a _).
  split; [eexists; reflexivity|]. split.
  - constructor; [reflexivity | constructor].
  - reflexivity.
Defined.

(** C4, as stated, fails: a stage function that raises aborts the trace.
    On [age = ['abc']] the function of "Transformation A" raises
    [TypeError]; the call logs the error and raises it, and
    "Transformation B", whose function returns true on this dataset, is not
    examined. *)
Lemma trace_aborts_on_type_error :
  traceback_data_issues operations_trace (mkw ages_text []) =
  (Raise type_error,
   mkw ages_text
     [ mk_record INFO "Tracing back data issues through pipeline." [];
       mk_record INFO "Checking step: %s" [ArgStr "Data Load"];
       mk_record INFO "Checking step: %s" [ArgStr "Transformation A"];
       mk_record ERROR "Error during traceback: %s"
         [ArgStr "'<' not supported between instances of 'str' and 'int'"] ])
  /\ map (fun st => function st ages_text) (skipn 2 operations_trace) =
     [Return true].
Proof. split; reflexivity. Qed.

(** C4, amended.  When a stage function raises after falses only,
    [traceback_data_issues] raises that exception: it has logged the stages
    up to the raising one and, for a subclass of [Exception], the error,
    and whatever stages follow are not examined. *)
Theorem traceback_reraises
  (d : DataFrame) (ops before : list step) (st : step) (e : exn)
  (pre : list log_record) :
  first_raise d ops before st e ->
  traceback_data_issues ops (mkw d pre) =
  (Raise e,
   mkw d (pre ++ tracing :: map checking before ++ checking st ::
                 (if is_Exception (exc_type e) then [traceback_error e]
                  else []))) /\
  forall after,
    traceback_data_issues (before ++ st :: after) (mkw d pre) =
    traceback_data_issues ops (mkw d pre).
Proof.
  intros H. split; [now apply traceback_first_raise|].
  intros after. rewrite (traceback_first_raise pre H).
  apply traceback_first_raise.
  destruct H as (_ & Hno & Hst). split; [now exists after | now split].
Qed.

Lemma names_only_trace_reraises :
  traceback_data_issues operations_trace (mkw names_only []) =
  (Raise key_error,
   mkw names_only
     ([] ++ tracing ::
        map checking [data_load] ++ checking transformation_a
        :: (if is_Exception (exc_type key_error)
            then [traceback_error key_error] else []))) /\
  forall after,
    traceback_data_issues ([data_load] ++ transformation_a :: after)
      (mkw names_only []) =
    traceback_data_issues operations_trace (mkw names_only []).
Proof.
  apply traceback_reraises.
  split; [eexists; reflexivity|]. split.
  - constructor; [reflexivity | constructor].
  - reflexivity.
Defined.

(* ================================================================== *)
(** ** The DataFrame is only read *)
(* ================================================================== *)

Section FrameSafe.

Context {A B : Type}.

Lemma frame_safe_ret (a : A) : frame_safe (ret a).
Proof. intros w. reflexivity. Qed.

Lemma frame_safe_raise (e : exn) : frame_safe (@raise A e).
Proof. intros w. reflexivity. Qed.

Lemma frame_safe_on_data (f : DataFrame -> result A) :
  frame_safe (on_data f).
Proof. intros w. reflexivity. Qed.

Lemma frame_safe_bind (m : py A) (k : A -> py B) :
  frame_safe m -> (forall a, frame_safe (k a)) -> frame_safe (bind m k).
Proof.
  intros Hm Hk w. unfold bind. specialize (Hm w).
  destruct (m w) as [[a|e] w1]; simpl in *.
  - now rewrite Hk.
  - assumption.
Qed.

Lemma frame_safe_try_except (body : py A) (C : exc_class -> bool)
  (handler : exn -> py A) :
  frame_safe body -> (forall e, frame_safe (handler e)) ->
  frame_safe (try_except body C handler).
Proof.
  intros Hb Hh w. unfold try_except. specialize (Hb w).
  destruct (body w) as [[a|e] w1]; simpl in *; [assumption|].
  destruct (C (exc_type e)); simpl; [now rewrite Hh | assumption].
Qed.

End FrameSafe.

Lemma frame_safe_logging (l : level) (m : string) (a : list logarg) :
  frame_safe (logging l m a).
Proof. intros w. reflexivity. Qed.

Create HintDb py_frame.
#[local] Hint Resolve frame_safe_ret frame_safe_raise frame_safe_on_data
  frame_safe_logging : py_frame.

(** Descend through the binds and handlers of a call, splitting on the
    conditions it tests. *)
Ltac frame_safe_step :=
  match goal with
  | |- frame_safe (bind _ _) => apply frame_safe_bind; [|intros ?]
  | |- frame_safe (try_except _ _ _) =>
      apply frame_safe_try_except; [|intros ?]
  | |- frame_safe (if ?b then _ else _) => destruct b
  | |- frame_safe (match ?o with Some _ => _ | None => _ end) => destruct o
  | |- frame_safe _ => solve [auto with py_frame]
  end.

Lemma validate_data_frame_safe : frame_safe validate_data.
Proof. unfold validate_data. repeat frame_safe_step. Qed.

Lemma for_step_frame_safe (ops : list step) : frame_safe (for_step ops).
Proof.
  induction ops as [|st ops IH]; simpl; repeat frame_safe_step.
Qed.

Lemma traceback_frame_safe (ops : list step) :
  frame_safe (traceback_data_issues ops).
Proof.
  unfold traceback_data_issues.
  pose proof (for_step_frame_safe ops).
  repeat frame_safe_step; assumption.
Qed.

(** C10.  Neither [validate_data] nor [traceback_data_issues] changes the
    DataFrame: after either call, and after the two in a row as [main] makes
    them, the columns, rows and cells are those of before. *)
Theorem dataset_not_mutated (ops : list step) (w : world) :
  frame (snd (validate_data w)) = frame w /\
  frame (snd (traceback_data_issues ops w)) = frame w /\
  frame (snd ((validate_data ;; traceback_data_issues ops) w)) = frame w.
Proof.
  split; [apply validate_data_frame_safe|].
  split; [apply traceback_frame_safe|].
  apply (@frame_safe_bind unit string).
  - apply validate_data_frame_safe.
  - intros _. apply traceback_frame_safe.
Qed.

(* ================================================================== *)
(** ** One run of [load_data] and of [main] *)
(* ================================================================== *)

Example main_clean :
  main (only_file ages_clean) (mkp (mkw [] []) []) =
  (Return tt,
   mkp (mkw ages_clean
          [ attempt "data.csv"; loaded;
            missing_start; range_start; format_start; passed;
            tracing; checking data_load; checking transformation_a;
            checking transformation_b; no_origin;
            traced_back "Unknown origin" ])
       []).
Proof. reflexivity. Qed.

Example main_negative :
  main (only_file ages_negative) (mkp (mkw [] []) []) =
  (Return tt,
   mkp (mkw ages_negative
          [ attempt "data.csv"; loaded;
            missing_start; range_start; range_warning; failed range_error;
            pipeline_error range_error ])
       ["An error occurred: Invalid age values identified."]).
Proof. reflexivity. Qed.

Example main_no_file :
  main no_file (mkp (mkw [] []) []) =
  (Return tt,
   mkp (mkw []
          [ attempt "data.csv"; file_not_found "data.csv";
            mk_record ERROR "An error occurred in the data pipeline: %s"
              [ArgStr "[Errno 2] No such file or directory: 'data.csv'"] ])
       ["An error occurred: [Errno 2] No such file or directory: 'data.csv'"]).
Proof. reflexivity. Qed.

Example validate_float :
  validate_outcome ages_float [] = Raise format_error.
Proof. reflexivity. Qed.

(** Every path through [load_data], with the records it writes. *)
Lemma load_data_run (read_csv : string -> result DataFrame)
  (file_path : string) (d : DataFrame) (pre : list log_record) :
  load_data read_csv file_path (mkw d pre) =
  match read_csv file_path with
  | Return data =>
      (Return data, mkw d (pre ++ [attempt file_path; loaded]))
  | Raise e =>
      if is_FileNotFoundError (exc_type e) then
        (Raise e, mkw d (pre ++ [attempt file_path; file_not_found file_path]))
      else if is_ParserError (exc_type e) then
        (Raise parse_failure,
         mkw d (pre ++ [attempt file_path; parsing_error e]))
      else (Raise e, mkw d (pre ++ [attempt file_path]))
  end.
Proof.
  unfold load_data, try_except2, bind, logging, call, ret, raise.
  cbn [frame logfile].
  destruct (read_csv file_path) as [data|e]; cbn [frame logfile].
  - now rewrite <- app_assoc.
  - destruct (is_FileNotFoundError (exc_type e)); cbn [frame logfile];
      [now rewrite <- app_assoc|].
    destruct (is_ParserError (exc_type e)); cbn [frame logfile];
      [now rewrite <- app_assoc | reflexivity].
Qed.

Lemma any_not_int (s : Series) :
  existsb (fun x => negb (isinstance_int x)) s =
  negb (forallb isinstance_int s).
Proof.
  induction s as [|c s IH]; simpl; [reflexivity|].
  rewrite IH. now destruct (isinstance_int c).
Qed.

Lemma transformation_a_eq (d : DataFrame) :
  function transformation_a d =
  match getitem d "age" with
  | Raise _ => Raise key_error
  | Return s =>
      if existsb is_textb s then Raise type_error
      else Return (existsb below_zerob s)
  end.
Proof.
  cbn [function transformation_a].
  pose proof (getitem_contains d "age") as H.
  destruct (contains (columns d) "age").
  - destruct H as [s ->]. rewrite lt_zero_eq.
    destruct (existsb is_textb s); [reflexivity|]. now rewrite any_map.
  - now rewrite H.
Qed.

Lemma transformation_b_eq (d : DataFrame) :
  function transformation_b d =
  match getitem d "age" with
  | Raise _ => Raise key_error
  | Return s => Return (negb (forallb isinstance_int s))
  end.
Proof.
  cbn [function transformation_b].
  pose proof (getitem_contains d "age") as H.
  destruct (contains (columns d) "age").
  - destruct H as [s ->]. now rewrite any_not_int.
  - now rewrite H.
Qed.

(** Every path through [traceback_data_issues] with the stages of [main],
    with the records it writes. *)
Lemma main_trace_run (d : DataFrame) (pre : list log_record) :
  traceback_data_issues operations_trace (mkw d pre) =
  if isnull_values_any d then
    (Return "Data Load",
     mkw d (pre ++ [tracing; checking data_load; identified data_load]))
  else
    match getitem d "age" with
    | Raise _ =>
        (Raise key_error,
         mkw d (pre ++ [tracing; checking data_load;
                        checking transformation_a;
                        traceback_error key_error]))
    | Return s =>
        if existsb is_textb s then
          (Raise type_error,
           mkw d (pre ++ [tracing; checking data_load;
                          checking transformation_a;
                          traceback_error type_error]))
        else if existsb below_zerob s then
          (Return "Transformation A",
           mkw d (pre ++ [tracing; checking data_load;
                          checking transformation_a;
                          identified transformation_a]))
        else if forallb isinstance_int s then
          (Return "Unknown origin",
           mkw d (pre ++ [tracing; checking data_load;
                          checking transformation_a;
                          checking transformation_b; no_origin]))
        else
          (Return "Transformation B",
           mkw d (pre ++ [tracing; checking data_load;
                          checking transformation_a;
                          checking transformation_b;
                          identified transformation_b]))
    end.
Proof.
  assert (function data_load d = Return (isnull_values_any d)) as Hl
      by reflexivity.
  pose proof (transformation_a_eq d) as Ha.
  pose proof (transformation_b_eq d) as Hb.
  destruct (isnull_values_any d).
  { rewrite traceback_first_match
      with (before := []) (st := data_load); [reflexivity|].
    split; [eexists; reflexivity|]. split; [constructor | exact Hl]. }
  assert (no_match d [data_load]) as N1 by (constructor; [exact Hl|constructor]).
  destruct (getitem d "age") as [s|e].
  2: { rewrite traceback_first_raise
         with (before := [data_load]) (st := transformation_a)
              (e := key_error); [reflexivity|].
       split; [eexists; reflexivity|]. now split. }
  destruct (existsb is_textb s).
  { rewrite traceback_first_raise
      with (before := [data_load]) (st := transformation_a)
           (e := type_error); [reflexivity|].
    split; [eexists; reflexivity|]. now split. }
  destruct (existsb below_zerob s).
  { rewrite traceback_first_match
      with (before := [data_load]) (st := transformation_a); [reflexivity|].
    split; [eexists; reflexivity|]. now split. }
  assert (no_match d [data_load; transformation_a]) as N2
      by (constructor; [exact Hl|constructor; [exact Ha|constructor]]).
  destruct (forallb isinstance_int s).
  - rewrite traceback_no_match; [reflexivity|].
    constructor; [exact Hl|]. constructor; [exact Ha|].
    constructor; [exact Hb|constructor].
  - rewrite traceback_first_match
      with (before := [data_load; transformation_a])
           (st := transformation_b); [reflexivity|].
    split; [eexists; reflexivity|]. now split.
Qed.

(** The [try] block of [main]: the load, then the validation of what was
    loaded, then, if it passed, a trace that finds no origin. *)
Lemma main_body_run (read_csv : string -> result DataFrame)
  (d0 : DataFrame) (pre : list log_record) :
  main_body read_csv (mkw d0 pre) =
  match read_csv "data.csv" with
  | Raise e =>
      if is_FileNotFoundError (exc_type e) then
        (Raise e,
         mkw d0 (pre ++ [attempt "data.csv"; file_not_found "data.csv"]))
      else if is_ParserError (exc_type e) then
        (Raise parse_failure,
         mkw d0 (pre ++ [attempt "data.csv"; parsing_error e]))
      else (Raise e, mkw d0 (pre ++ [attempt "data.csv"]))
  | Return data =>
      match validate_data (mkw data (pre ++ [attempt "data.csv"; loaded])) with
      | (Raise e, w) => (Raise e, w)
      | (Return _, w) =>
          (Return tt,
           mkw data (logfile w ++
                     [ tracing; checking data_load;
                       checking transformation_a;
                       checking transformation_b; no_origin;
                       traced_back "Unknown origin" ]))
      end
  end.
Proof.
  unfold main_body. unfold bind at 1. rewrite load_data_run.
  destruct (read_csv "data.csv") as [data|e].
  - unfold bind at 1, assign_data at 1. cbn [frame logfile].
    unfold bind at 1. rewrite validate_data_run.
    destruct (isnull_values_any data) eqn:E1; [reflexivity|].
    destruct (getitem data "age") as [s|e] eqn:E2; [|reflexivity].
    destruct (existsb is_textb s) eqn:E3; [reflexivity|].
    destruct (existsb below_zerob s) eqn:E4; [reflexivity|].
    destruct (forallb isinstance_int s) eqn:E5; [|reflexivity].
    unfold bind at 1. rewrite main_trace_run, E1, E2, E3, E4, E5.
    unfold logging. cbn [frame logfile]. now rewrite <- !app_assoc.
  - destruct (is_FileNotFoundError (exc_type e)); [reflexivity|].
    destruct (is_ParserError (exc_type e)); reflexivity.
Qed.

(* ================================================================== *)
(** ** Further properties of [validate_data] *)
(* ================================================================== *)

(** Decide membership of a record in an explicit list of records. *)
Ltac record_in :=
  unfold passed, failed, missing_start, range_start, format_start,
    missing_warning, range_warning, format_warning in *;
  simpl In in *;
  repeat match goal with
    | H : _ \/ _ |- _ => destruct H as [H|H]
    | H : False |- _ => destruct H
    | H : mk_record _ _ _ = mk_record _ _ _ |- _ => discriminate H
    end.

(** X2.  On a dataset with unique column labels, [validate_data] returns
    or raises one of five exceptions, and nothing else.  Its first record
    is the start of the missing-data check;
    it writes "Data validation passed." exactly when it returns, and a
    "Data validation failed" record exactly when it raises a
    [DataQualityError]. *)
Theorem validate_data_outcomes (d : DataFrame) (pre : list log_record) :
  NoDup (columns d) ->
  exists written,
    snd (validate_data (mkw d pre)) = mkw d (pre ++ written) /\
    hd_error written = Some missing_start /\
    (validate_outcome d pre = Return tt \/
     validate_outcome d pre = Raise missing_error \/
     validate_outcome d pre = Raise range_error \/
     validate_outcome d pre = Raise format_error \/
     validate_outcome d pre = Raise key_error \/
     validate_outcome d pre = Raise type_error) /\
    (In passed written <-> validate_outcome d pre = Return tt) /\
    ((exists e, In (failed e) written) <->
     exists e, validate_outcome d pre = Raise e /\
               is_DataQualityError (exc_type e) = true).
Proof.
  intros _. unfold validate_outcome. rewrite validate_data_run.
  destruct (isnull_values_any d).
  { eexists. split; [reflexivity|]. split; [reflexivity|].
    split; [tauto|]. split; split.
    - intros H. record_in.
    - discriminate.
    - intros _. exists missing_error. split; reflexivity.
    - intros _. exists missing_error. simpl. tauto. }
  destruct (getitem d "age") as [s|e0].
  2: { eexists. split; [reflexivity|]. split; [reflexivity|].
       split; [tauto|]. split; split.
       - intros H. record_in.
       - discriminate.
       - intros [e H]. record_in.
       - intros [e [[= <-] H]]. discriminate H. }
  destruct (existsb is_textb s).
  { eexists. split; [reflexivity|]. split; [reflexivity|].
    split; [tauto|]. split; split.
    - intros H. record_in.
    - discriminate.
    - intros [e H]. record_in.
    - intros [e [[= <-] H]]. discriminate H. }
  destruct (existsb below_zerob s).
  { eexists. split; [reflexivity|]. split; [reflexivity|].
    split; [tauto|]. split; split.
    - intros H. record_in.
    - discriminate.
    - intros _. exists range_error. split; reflexivity.
    - intros _. exists range_error. simpl. tauto. }
  destruct (forallb isinstance_int s).
  - eexists. split; [reflexivity|]. split; [reflexivity|].
    split; [tauto|]. split; split.
    + reflexivity.
    + intros _. simpl. tauto.
    + intros [e H]. record_in.
    + intros [e [H _]]. discriminate H.
  - eexists. split; [reflexivity|]. split; [reflexivity|].
    split; [tauto|]. split; split.
    + intros H. record_in.
    + discriminate.
    + intros _. exists format_error. split; reflexivity.
    + intros _. exists format_error. simpl. tauto.
Qed.

(** [age = ['abc']]: the call raises the [TypeError], one of the five, and
    writes neither the closing record nor a failure record. *)
Lemma text_age_outcome :
  validate_outcome ages_text [] = Raise type_error /\
  exists written,
    snd (validate_data (mkw ages_text [])) = mkw ages_text ([] ++ written) /\
    ~ In passed written /\
    ~ exists e, In (failed e) written.
Proof.
  assert (NoDup (columns ages_text)) as Hu
      by (simpl; repeat constructor; simpl; tauto).
  destruct (@validate_data_outcomes ages_text [] Hu)
    as (written & Hw & _ & _ & Hp & Hf).
  split; [reflexivity|]. exists written. split; [exact Hw|]. split.
  - intros H. apply Hp in H. discriminate H.
  - intros H. apply Hf in H. destruct H as [e [He Hq]].
    injection He as <-. discriminate Hq.
Defined.

Lemma getitem_column (d : DataFrame) (key : string) (s : Series) :
  getitem d key = Return s -> In (key, s) d.
Proof.
  induction d as [|[label s'] d IH]; simpl; [discriminate|].
  destruct (String.eqb label key) eqn:E.
  - apply String.eqb_eq in E. intros [= ->]. left. now subst.
  - intros H. right. auto.
Qed.

Lemma not_all_int (s : Series) :
  forallb isinstance_int s = false <->
  exists c, In c s /\ isinstance_int c = false.
Proof.
  induction s as [|c s IH]; simpl.
  - split; [discriminate | intros [? [[] _]]].
  - rewrite andb_false_iff, IH. split.
    + intros [H | [c' [Hin H]]]; [exists c | exists c']; auto.
    + intros [c' [[<-|Hin] H]]; [now left | right; now exists c'].
Qed.

Lemma some_text (s : Series) :
  existsb is_textb s = true <-> exists t, In (CText t) s.
Proof.
  rewrite existsb_exists. split.
  - intros [c [Hin Ht]]. destruct c; try discriminate. now exists s0.
  - intros [t Hin]. now exists (CText t).
Qed.

Lemma age_absent (d : DataFrame) :
  ~ In "age" (columns d) <-> getitem d "age" = Raise key_error.
Proof.
  rewrite <- contains_In.
  pose proof (getitem_contains d "age") as H.
  destruct (contains (columns d) "age").
  - destruct H as [s ->]. split; [congruence | discriminate].
  - rewrite H. split; [reflexivity | discriminate].
Qed.

Lemma getitem_age_raise (d : DataFrame) (e : exn) :
  getitem d "age" = Raise e -> e = key_error.
Proof.
  pose proof (getitem_contains d "age") as H.
  destruct (contains (columns d) "age").
  - destruct H as [s ->]. discriminate.
  - rewrite H. now intros [= <-].
Qed.

(** X3.  On a dataset with unique column labels, [validate_data] raises
    [DataFormatError] exactly when the dataset has no null cell and its
    [age] column, free of text and of values below zero, holds a float: a
    [str] age is never reported as a format violation. *)
Theorem format_error_only_for_floats (d : DataFrame) (pre : list log_record) :
  NoDup (columns d) ->
  validate_outcome d pre = Raise format_error <->
  ~ null_cell d /\
  exists s, age_column d s /\
            (forall c, In c s -> ~ is_text c /\ ~ below_zero c) /\
            exists f, In (CFloat f) s.
Proof.
  intros _. unfold validate_outcome, age_column.
  rewrite validate_data_run, <- isnull_values_any_false.
  destruct (isnull_values_any d) eqn:E1;
    [split; [discriminate | intros [? _]; discriminate]|].
  destruct (getitem d "age") as [s|e] eqn:E2.
  2: { split; [discriminate | intros [_ [s [? _]]]; discriminate]. }
  destruct (existsb is_textb s) eqn:E3.
  { split; [discriminate|]. intros [_ [s' [[= <-] [H _]]]].
    apply existsb_exists in E3. destruct E3 as [c [Hc Ht]].
    elim (proj1 (H c Hc)). destruct c; try discriminate. now eexists. }
  destruct (existsb below_zerob s) eqn:E4.
  { split; [discriminate|]. intros [_ [s' [[= <-] [H _]]]].
    apply existsb_exists in E4. destruct E4 as [c [Hc Hb]].
    elim (proj2 (H c Hc)). exact Hb. }
  destruct (forallb isinstance_int s) eqn:E5; cbn.
  - split; [discriminate|]. intros [_ [s' [[= <-] [_ [f Hf]]]]].
    rewrite forallb_forall in E5. specialize (E5 _ Hf). discriminate.
  - split; [intros _ | reflexivity]. split; [reflexivity|].
    exists s. split; [reflexivity|]. split.
    + intros c Hc. split.
      * rewrite no_text_iff in E3. auto.
      * rewrite none_below_zero_iff in E4. auto.
    + apply not_all_int in E5. destruct E5 as [c [Hc Hi]].
      destruct c as [z|f|b|t|]; try discriminate.
      * now exists f.
      * rewrite no_text_iff in E3. elim (E3 _ Hc). now exists t.
      * apply isnull_values_any_false in E1. elim E1.
        exists "age", s, CNull. split; [now apply getitem_column|].
        split; [assumption | reflexivity].
Qed.

(** [age = [25.0, 31.5]]: unique labels, no null, no text, no value below
    zero, and a float. *)
Lemma float_ages_format_error :
  validate_outcome ages_float [] = Raise format_error.
Proof.
  assert (NoDup (columns ages_float)) as Hu
      by (simpl; repeat constructor; simpl; tauto).
  apply (proj2 (@format_error_only_for_floats ages_float [] Hu)).
  split; [apply isnull_values_any_false; reflexivity|].
  exists [CFloat 25%float; CFloat 31.5%float]. split; [reflexivity|]. split.
  - intros c [<-|[<-|[]]]; split;
      try (intros [t Ht]; discriminate); unfold below_zero;
      now vm_compute.
  - exists 25%float. now left.
Defined.

(** X4.  On a dataset with unique column labels, the two exceptions that
    escape [validate_data] without being a [DataQualityError]: [KeyError]
    exactly on a dataset without nulls and without an [age] column,
    [TypeError] exactly on a dataset without nulls whose [age] column holds
    a [str].  Neither is logged: the call then writes only start records of
    level INFO. *)
Theorem unhandled_exceptions (d : DataFrame) (pre : list log_record) :
  NoDup (columns d) ->
  (validate_outcome d pre = Raise key_error <->
   ~ null_cell d /\ ~ In "age" (columns d)) /\
  (validate_outcome d pre = Raise type_error <->
   ~ null_cell d /\ exists s, age_column d s /\ exists t, In (CText t) s) /\
  (forall e,
      validate_outcome d pre = Raise e ->
      is_DataQualityError (exc_type e) = false ->
      exists written,
        snd (validate_data (mkw d pre)) = mkw d (pre ++ written) /\
        forall r, In r written -> levelname r = INFO).
Proof.
  intros _. unfold validate_outcome, age_column.
  rewrite validate_data_run, <- isnull_values_any_false, age_absent.
  destruct (isnull_values_any d).
  { split; [|split].
    - split; [discriminate | intros [? _]; discriminate].
    - split; [discriminate | intros [? _]; discriminate].
    - intros e [= <-]. discriminate. }
  destruct (getitem d "age") as [s|e0] eqn:E2.
  2: { apply getitem_age_raise in E2. subst e0. split; [|split].
       - split; [intros _; split; reflexivity | reflexivity].
       - split; [discriminate | intros [_ [s [? _]]]; discriminate].
       - intros e _ _. eexists. split; [reflexivity|].
         intros r H. record_in; now subst. }
  destruct (existsb is_textb s) eqn:E3.
  { split; [|split].
    - split; [discriminate | intros [_ ?]; discriminate].
    - split; [intros _ | reflexivity]. split; [reflexivity|].
      exists s. split; [reflexivity | now apply some_text].
    - intros e _ _. eexists. split; [reflexivity|].
      intros r H. record_in; now subst. }
  assert (forall P : Prop,
             (exists s0, Return s = Return s0 /\ exists t, In (CText t) s0)
             -> P) as Hno.
  { intros P [s0 [[= <-] H]]. apply some_text in H. congruence. }
  destruct (existsb below_zerob s).
  { split; [|split].
    - split; [discriminate | intros [_ ?]; discriminate].
    - split; [discriminate | intros [_ H]; now apply Hno].
    - intros e [= <-]. discriminate. }
  destruct (forallb isinstance_int s); cbn; (split; [|split]).
  - split; [discriminate | intros [_ ?]; discriminate].
  - split; [discriminate | intros [_ H]; now apply Hno].
  - discriminate.
  - split; [discriminate | intros [_ ?]; discriminate].
  - split; [discriminate | intros [_ H]; now apply Hno].
  - intros e [= <-]. discriminate.
Qed.

(** [age = ['abc']] raises the [TypeError]; [name = ['ann', 'bob']]
    raises the [KeyError]. *)
Lemma text_age_and_no_age_escape :
  validate_outcome ages_text [] = Raise type_error /\
  validate_outcome names_only [] = Raise key_error.
Proof.
  split.
  - assert (NoDup (columns ages_text)) as Hu
        by (simpl; repeat constructor; simpl; tauto).
    apply (proj1 (proj2 (@unhandled_exceptions ages_text [] Hu))).
    split; [apply isnull_values_any_false; reflexivity|].
    exists [CText "abc"]. split; [reflexivity|].
    exists "abc". now left.
  - assert (NoDup (columns names_only)) as Hu
        by (simpl; repeat constructor; simpl; tauto).
    apply (proj1 (@unhandled_exceptions names_only [] Hu)).
    split; [apply isnull_values_any_false; reflexivity|].
    simpl. intros [H|[]]. discriminate H.
Defined.

Lemma isnull_values_any_insert (d1 d2 : DataFrame) (label : string)
  (s : Series) :
  existsb isnull s = false ->
  isnull_values_any (d1 ++ (label, s) :: d2) = isnull_values_any (d1 ++ d2).
Proof.
  intros H. unfold isnull_values_any. rewrite !existsb_app. simpl.
  now rewrite H.
Qed.

Lemma getitem_insert (d1 d2 : DataFrame) (label key : string) (s : Series) :
  label <> key ->
  getitem (d1 ++ (label, s) :: d2) key = getitem (d1 ++ d2) key.
Proof.
  intros H. induction d1 as [|[l c] d1 IH]; simpl.
  - apply String.eqb_neq in H. now rewrite H.
  - now rewrite IH.
Qed.

Lemma null_count_zero (s : Series) :
  existsb isnull s = false -> null_count s = 0.
Proof.
  unfold null_count. induction s as [|c s IH]; simpl; [reflexivity|].
  destruct (isnull c); simpl; [discriminate | exact IH].
Qed.

Lemma missing_columns_insert (d1 d2 : DataFrame) (label : string)
  (s : Series) :
  existsb isnull s = false ->
  missing_columns (d1 ++ (label, s) :: d2) = missing_columns (d1 ++ d2).
Proof.
  intros H. unfold missing_columns, positive, isnull_sum. f_equal.
  rewrite !map_app, !filter_app. simpl.
  now rewrite (null_count_zero s H).
Qed.

(** X5.  A column that is not [age] and holds no null does not matter to
    [validate_data]: with or without it, wherever it stands, the call
    returns or raises the same and writes the same records. *)
Theorem other_columns_do_not_matter
  (d1 d2 : DataFrame) (label : string) (s : Series) (pre : list log_record) :
  label <> "age" ->
  (forall c, In c s -> isnull c = false) ->
  fst (validate_data (mkw (d1 ++ (label, s) :: d2) pre)) =
  fst (validate_data (mkw (d1 ++ d2) pre)) /\
  logfile (snd (validate_data (mkw (d1 ++ (label, s) :: d2) pre))) =
  logfile (snd (validate_data (mkw (d1 ++ d2) pre))).
Proof.
  intros Hl Hs. apply existsb_false in Hs.
  rewrite !validate_data_run.
  rewrite (isnull_values_any_insert d1 d2 label s Hs).
  rewrite (getitem_insert d1 d2 s Hl).
  unfold missing_warning. rewrite (missing_columns_insert d1 d2 label s Hs).
  destruct (isnull_values_any (d1 ++ d2)); [split; reflexivity|].
  destruct (getitem (d1 ++ d2) "age") as [a|e]; [|split; reflexivity].
  destruct (existsb is_textb a); [split; reflexivity|].
  destruct (existsb below_zerob a); [split; reflexivity|].
  destruct (forallb isinstance_int a); split; reflexivity.
Qed.

Lemma city_column_does_not_matter :
  fst (validate_data
         (mkw ([] ++ ("city", [CText "x"; CText "y"; CText "z"])
                  :: ages_negative) [])) =
  fst (validate_data (mkw ([] ++ ages_negative) [])) /\
  logfile (snd (validate_data
                  (mkw ([] ++ ("city", [CText "x"; CText "y"; CText "z"])
                           :: ages_negative) []))) =
  logfile (snd (validate_data (mkw ([] ++ ages_negative) []))).
Proof.
  apply other_columns_do_not_matter.
  - discriminate.
  - intros c [<-|[<-|[<-|[]]]]; reflexivity.
Defined.

Lemma positive_sum (counts : list (string * nat)) :
  list_sum (map snd (positive counts)) = list_sum (map snd counts).
Proof.
  unfold positive. induction counts as [|[label n] counts IH]; simpl;
    [reflexivity|].
  destruct n as [|n]; simpl; [exact IH | now rewrite IH].
Qed.

Lemma isnull_sum_total (d : DataFrame) :
  list_sum (map snd (isnull_sum d)) = null_cells d.
Proof.
  unfold isnull_sum, null_cells.
  induction d as [|[label s] d IH]; simpl; [reflexivity|].
  rewrite filter_app, length_app, IH. reflexivity.
Qed.

(** X6.  With unique column labels, the counts of the dict logged by the
    missing-data warning add up to the number of null cells of the
    dataset. *)
Theorem report_counts_all_nulls (d : DataFrame) :
  NoDup (columns d) ->
  list_sum (map snd (missing_columns d)) = null_cells d.
Proof.
  intros H. rewrite (missing_columns_unique d H), positive_sum.
  apply isnull_sum_total.
Qed.

Lemma two_null_columns_total :
  list_sum (map snd (missing_columns two_null_columns)) =
  null_cells two_null_columns.
Proof.
  apply report_counts_all_nulls.
  simpl. repeat constructor; simpl; intuition discriminate.
Defined.

(* ================================================================== *)
(** ** Further properties of [traceback_data_issues] *)
(* ================================================================== *)

(** X7.  The stages examined are those up to and including the first
    match, in order, each once: the call writes one "Checking step" record
    for each of them and names the match; the stages after it leave no
    record.  Without a match every stage is examined once and the closing
    record says that no origin was found. *)
Theorem traceback_examines_up_to_match
  (d : DataFrame) (ops : list step) (pre : list log_record) :
  (forall before st,
      first_match d ops before st ->
      snd (traceback_data_issues ops (mkw d pre)) =
      mkw d (pre ++ tracing :: map checking before ++
                    [checking st; identified st])) /\
  (no_match d ops ->
   snd (traceback_data_issues ops (mkw d pre)) =
   mkw d (pre ++ tracing :: map checking ops ++ [no_origin])).
Proof.
  split.
  - intros before st H. now rewrite (traceback_first_match pre H).
  - intros H. now rewrite (traceback_no_match pre H).
Qed.

Lemma negative_age_examined :
  snd (traceback_data_issues operations_trace (mkw ages_negative [])) =
  mkw ages_negative
    ([] ++ tracing :: map checking [data_load] ++
           [checking transformation_a; identified transformation_a]).
Proof.
  apply (proj1 (traceback_examines_up_to_match
                  ages_negative operations_trace [])).
  split; [eexists; reflexivity|]. split.
  - constructor; [reflexivity | constructor].
  - reflexivity.
Defined.

Lemma first_match_extend (d : DataFrame) (ops more before : list step)
  (st : step) :
  first_match d ops before st -> first_match d (ops ++ more) before st.
Proof.
  intros ([after ->] & Hno & Hst). split; [|now split].
  exists (after ++ more). now rewrite <- app_assoc.
Qed.

Lemma first_raise_extend (d : DataFrame) (ops more before : list step)
  (st : step) (e : exn) :
  first_raise d ops before st e -> first_raise d (ops ++ more) before st e.
Proof.
  intros ([after ->] & Hno & Hst). split; [|now split].
  exists (after ++ more). now rewrite <- app_assoc.
Qed.

(** X8.  Stages registered after a list that already matches, or raises,
    change nothing: the call returns or raises the same and writes the same
    records.  Stages registered after a list without a match decide the
    answer alone. *)
Theorem traceback_ignores_later_stages
  (d : DataFrame) (ops more : list step) (pre : list log_record) :
  ((exists before st, first_match d ops before st) \/
   (exists before st e, first_raise d ops before st e) ->
   traceback_data_issues (ops ++ more) (mkw d pre) =
   traceback_data_issues ops (mkw d pre)) /\
  (no_match d ops ->
   traceback_outcome (ops ++ more) d pre = traceback_outcome more d pre).
Proof.
  split.
  - intros [(before & st & H) | (before & st & e & H)].
    + rewrite (traceback_first_match pre H).
      apply traceback_first_match. now apply first_match_extend.
    + rewrite (traceback_first_raise pre H).
      apply traceback_first_raise. now apply first_raise_extend.
  - intros Hno. unfold traceback_outcome.
    destruct (steps_outcome d more)
      as [H | [(before & st & H) | (before & st & e & H)]].
    + rewrite (traceback_no_match pre H).
      rewrite traceback_no_match; [reflexivity|].
      apply Forall_app. now split.
    + rewrite (traceback_first_match pre H).
      rewrite traceback_first_match
        with (before := ops ++ before) (st := st); [reflexivity|].
      destruct H as ([after ->] & Hb & Hst). split; [|split].
      * exists after. now rewrite <- app_assoc.
      * apply Forall_app. now split.
      * assumption.
    + rewrite (traceback_first_raise pre H).
      rewrite traceback_first_raise
        with (before := ops ++ before) (st := st) (e := e); [reflexivity|].
      destruct H as ([after ->] & Hb & Hst). split; [|split].
      * exists after. now rewrite <- app_assoc.
      * apply Forall_app. now split.
      * assumption.
Qed.

Lemma later_stages_ignored_on_null :
  traceback_data_issues ([data_load] ++ [transformation_a; transformation_b])
    (mkw ages_null []) =
  traceback_data_issues [data_load] (mkw ages_null []).
Proof.
  apply (proj1 (traceback_ignores_later_stages ages_null [data_load]
                  [transformation_a; transformation_b] [])).
  left. exists [], data_load.
  split; [eexists; reflexivity|]. split; [constructor | reflexivity].
Defined.

(** X9.  With the stages of [main], the trace agrees with the validation
    of the same dataset: "Data Load" exactly when [validate_data] raises
    [MissingDataError], "Transformation A" exactly on [DataRangeError],
    "Transformation B" exactly on [DataFormatError], "Unknown origin"
    exactly when the validation passes, and the same [KeyError] or
    [TypeError] when the validation lets one escape. *)
Theorem trace_agrees_with_validation
  (d : DataFrame) (pre pre' : list log_record) :
  (validate_outcome d pre = Raise missing_error <->
   traceback_outcome operations_trace d pre' = Return "Data Load") /\
  (validate_outcome d pre = Raise range_error <->
   traceback_outcome operations_trace d pre' = Return "Transformation A") /\
  (validate_outcome d pre = Raise format_error <->
   traceback_outcome operations_trace d pre' = Return "Transformation B") /\
  (validate_outcome d pre = Return tt <->
   traceback_outcome operations_trace d pre' = Return "Unknown origin") /\
  (forall e,
      is_DataQualityError (exc_type e) = false ->
      (validate_outcome d pre = Raise e <->
       traceback_outcome operations_trace d pre' = Raise e)).
Proof.
  unfold validate_outcome, traceback_outcome.
  rewrite validate_data_run, main_trace_run.
  destruct (isnull_values_any d).
  { repeat split; try discriminate; try reflexivity.
    intros H'. cbn in H'. injection H' as <-. discriminate H. }
  destruct (getitem d "age") as [s|e0].
  2: { repeat split; try discriminate; auto; now intros [= <-]. }
  destruct (existsb is_textb s).
  { repeat split; try discriminate; auto; now intros [= <-]. }
  destruct (existsb below_zerob s).
  { repeat split; try discriminate; try reflexivity.
    intros H'. cbn in H'. injection H' as <-. discriminate H. }
  destruct (forallb isinstance_int s); cbn;
    repeat split; try discriminate; try reflexivity.
  intros H'. cbn in H'. injection H' as <-. discriminate H.
Qed.

(* ================================================================== *)
(** ** Properties of [load_data] *)
(* ================================================================== *)

Lemma file_not_found_is_no_parser_error (c : exc_class) :
  is_FileNotFoundError c = true -> is_ParserError c = false.
Proof.
  destruct c; simpl; try reflexivity.
  intros H. apply String.eqb_eq in H. now subst.
Qed.

(** X10.  [load_data] returns exactly the DataFrame that [pd.read_csv]
    returns, and raises when it raises.  It always logs the attempt first,
    and logs "Data loaded successfully." exactly when it returns; it leaves
    the DataFrame bound to [data] alone. *)
Theorem load_data_returns_what_was_read
  (read_csv : string -> result DataFrame) (file_path : string)
  (d : DataFrame) (pre : list log_record) :
  (forall data,
      fst (load_data read_csv file_path (mkw d pre)) = Return data <->
      read_csv file_path = Return data) /\
  exists written,
    snd (load_data read_csv file_path (mkw d pre)) =
    mkw d (pre ++ attempt file_path :: written) /\
    (In loaded written <-> exists data, read_csv file_path = Return data).
Proof.
  rewrite load_data_run.
  destruct (read_csv file_path) as [data|e].
  - split; [intros data'; split; intros [= ->]; reflexivity|].
    eexists. split; [reflexivity|]. split; [now exists data|].
    intros _. now left.
  - assert (forall P : Prop,
               (exists data : DataFrame, @Raise DataFrame e = Return data)
               -> P) as Hno by (intros P [data H]; discriminate H).
    destruct (is_FileNotFoundError (exc_type e));
      [|destruct (is_ParserError (exc_type e))];
      (split; [intros data; split; discriminate|]);
      eexists; (split; [reflexivity|]); (split; [|apply Hno]);
      unfold loaded, file_not_found, parsing_error; simpl;
      intuition discriminate.
Qed.

(** X11.  What [load_data] raises: a [ParserError] of [pd.read_csv]
    becomes a [DataFormatError] with a fixed message, the parser's message
    going to the log only; every other exception is raised as it came.  A
    [FileNotFoundError] is logged with the path, and an exception of any
    other class leaves no error record. *)
Theorem load_data_errors
  (read_csv : string -> result DataFrame) (file_path : string)
  (d : DataFrame) (pre : list log_record) :
  (forall e',
      fst (load_data read_csv file_path (mkw d pre)) = Raise e' <->
      exists e, read_csv file_path = Raise e /\
                e' = if is_ParserError (exc_type e) then parse_failure
                     else e) /\
  (forall e,
      read_csv file_path = Raise e ->
      snd (load_data read_csv file_path (mkw d pre)) =
      mkw d (pre ++ attempt file_path ::
                 (if is_FileNotFoundError (exc_type e)
                  then [file_not_found file_path]
                  else if is_ParserError (exc_type e)
                       then [parsing_error e]
                       else []))).
Proof.
  rewrite load_data_run.
  destruct (read_csv file_path) as [data|e].
  - split; [|discriminate].
    intros e'. split; [discriminate | intros [e [H _]]; discriminate].
  - pose proof (file_not_found_is_no_parser_error (exc_type e)) as Hx.
    split.
    + intros e'.
      destruct (is_FileNotFoundError (exc_type e)).
      * cbn. split.
        -- intros [= <-]. exists e. rewrite (Hx eq_refl). auto.
        -- intros [e0 [[= <-] ->]]. now rewrite (Hx eq_refl).
      * destruct (is_ParserError (exc_type e)) eqn:Ep; cbn; split.
        -- intros [= <-]. exists e. now rewrite Ep.
        -- intros [e0 [[= <-] ->]]. now rewrite Ep.
        -- intros [= <-]. exists e. now rewrite Ep.
        -- intros [e0 [[= <-] ->]]. now rewrite Ep.
    + intros e0 [= <-].
      destruct (is_FileNotFoundError (exc_type e)); [reflexivity|].
      destruct (is_ParserError (exc_type e)); reflexivity.
Qed.

(* ================================================================== *)
(** ** Properties of [main] *)
(* ================================================================== *)

Lemma validate_data_raises_exception (w w' : world) (e : exn) :
  validate_data w = (Raise e, w') -> is_Exception (exc_type e) = true.
Proof.
  destruct w as [d pre]. rewrite validate_data_run.
  destruct (isnull_values_any d); [now intros [= <- _]|].
  destruct (getitem d "age") as [s|e0]; [|now intros [= <- _]].
  destruct (existsb is_textb s); [now intros [= <- _]|].
  destruct (existsb below_zerob s); [now intros [= <- _]|].
  destruct (forallb isinstance_int s); [discriminate | now intros [= <- _]].
Qed.

Lemma validate_data_written (d : DataFrame) (pre : list log_record) :
  exists written,
    snd (validate_data (mkw d pre)) = mkw d (pre ++ written) /\
    forall origin, ~ In (traced_back origin) written.
Proof.
  rewrite validate_data_run.
  destruct (isnull_values_any d);
    [|destruct (getitem d "age") as [s|e0];
      [destruct (existsb is_textb s);
       [|destruct (existsb below_zerob s);
         [|destruct (forallb isinstance_int s)]]|]];
    (eexists; split; [reflexivity|]);
    intros origin H; unfold traced_back in H; record_in.
Qed.

Lemma file_not_found_is_exception (c : exc_class) :
  is_FileNotFoundError c = true -> is_Exception c = true.
Proof. destruct c; simpl; congruence. Qed.

Lemma parser_error_is_exception (c : exc_class) :
  is_ParserError c = true -> is_Exception c = true.
Proof. destruct c; simpl; congruence. Qed.

(** Every path through [main]. *)
Lemma main_run (read_csv : string -> result DataFrame)
  (d0 : DataFrame) (pre : list log_record) (out : list string) :
  main read_csv (mkp (mkw d0 pre) out) =
  match read_csv "data.csv" with
  | Raise e =>
      if is_FileNotFoundError (exc_type e) then
        (Return tt,
         mkp (mkw d0 (pre ++ [attempt "data.csv"; file_not_found "data.csv";
                             pipeline_error e]))
             (out ++ [("An error occurred: " ++ exc_str e)%string]))
      else if is_ParserError (exc_type e) then
        (Return tt,
         mkp (mkw d0 (pre ++ [attempt "data.csv"; parsing_error e;
                             pipeline_error parse_failure]))
             (out ++ ["An error occurred: Error parsing data, check the file format."]))
      else if is_Exception (exc_type e) then
        (Return tt,
         mkp (mkw d0 (pre ++ [attempt "data.csv"; pipeline_error e]))
             (out ++ [("An error occurred: " ++ exc_str e)%string]))
      else (Raise e, mkp (mkw d0 (pre ++ [attempt "data.csv"])) out)
  | Return data =>
      match validate_data (mkw data (pre ++ [attempt "data.csv"; loaded])) with
      | (Raise e, w) =>
          (Return tt,
           mkp (mkw (frame w) (logfile w ++ [pipeline_error e]))
               (out ++ [("An error occurred: " ++ exc_str e)%string]))
      | (Return _, w) =>
          (Return tt,
           mkp (mkw data (logfile w ++
                          [ tracing; checking data_load;
                            checking transformation_a;
                            checking transformation_b; no_origin;
                            traced_back "Unknown origin" ]))
               out)
      end
  end.
Proof.
  unfold main. cbn [state stdout]. rewrite main_body_run.
  destruct (read_csv "data.csv") as [data|e].
  - destruct (validate_data (mkw data (pre ++ [attempt "data.csv"; loaded])))
      as [[u|e] w] eqn:V; [reflexivity|].
    now rewrite (validate_data_raises_exception _ V).
  - destruct (is_FileNotFoundError (exc_type e)) eqn:F.
    { rewrite (file_not_found_is_exception _ F). cbn.
      now rewrite <- app_assoc. }
    destruct (is_ParserError (exc_type e)) eqn:P.
    { cbn. now rewrite <- app_assoc. }
    destruct (is_Exception (exc_type e)); [|reflexivity].
    cbn. now rewrite <- app_assoc.
Qed.

(** X12.  [main] lets no [Exception] escape: it returns, except when
    [pd.read_csv] raises an exception outside [Exception], which it lets
    through. *)
Theorem main_lets_no_exception_escape
  (read_csv : string -> result DataFrame) (p : process) :
  (forall e,
      fst (main read_csv p) = Raise e <->
      read_csv "data.csv" = Raise e /\ is_Exception (exc_type e) = false) /\
  (fst (main read_csv p) = Return tt \/
   exists e, fst (main read_csv p) = Raise e /\
             is_Exception (exc_type e) = false).
Proof.
  destruct p as [[d0 pre] out]. rewrite main_run.
  destruct (read_csv "data.csv") as [data|e].
  - destruct (validate_data (mkw data (pre ++ [attempt "data.csv"; loaded])))
      as [[u|e] w]; (split; [|now left]);
      intros e'; (split; [discriminate | intros [? _]; discriminate]).
  - destruct (is_FileNotFoundError (exc_type e)) eqn:F.
    { apply file_not_found_is_exception in F. split; [|now left].
      intros e'. split; [discriminate | intros [[= <-] H]; congruence]. }
    destruct (is_ParserError (exc_type e)) eqn:P.
    { apply parser_error_is_exception in P. split; [|now left].
      intros e'. split; [discriminate | intros [[= <-] H]; congruence]. }
    destruct (is_Exception (exc_type e)) eqn:X.
    + split; [|now left].
      intros e'. split; [discriminate | intros [[= <-] H]; congruence].
    + split; [|right; now exists e].
      intros e'. cbn. split.
      * intros [= <-]. now split.
      * now intros [[= <-] _].
Qed.

(** X13.  [main] reaches the trace only with data that passed the
    validation, and the trace then finds nothing: whenever [main] logs
    "Data quality issue traced back to", the origin it names is
    "Unknown origin", and the file was read and passed [validate_data]. *)
Theorem main_traces_only_clean_data
  (read_csv : string -> result DataFrame) (p : process) :
  exists written,
    logfile (state (snd (main read_csv p))) = logfile (state p) ++ written /\
    forall origin,
      In (traced_back origin) written ->
      origin = "Unknown origin" /\
      exists data,
        read_csv "data.csv" = Return data /\
        validate_outcome data
          (logfile (state p) ++ [attempt "data.csv"; loaded]) = Return tt.
Proof.
  destruct p as [[d0 pre] out]. rewrite main_run. cbn [state logfile].
  destruct (read_csv "data.csv") as [data|e].
  - destruct (validate_data_written data (pre ++ [attempt "data.csv"; loaded]))
      as (vw & Hs & Hno).
    unfold validate_outcome.
    destruct (validate_data (mkw data (pre ++ [attempt "data.csv"; loaded])))
      as [[[]|e] w] eqn:V; cbn [snd] in Hs; subst w;
      cbn [snd fst state logfile frame].
    + exists ([attempt "data.csv"; loaded] ++ vw ++
              [ tracing; checking data_load; checking transformation_a;
                checking transformation_b; no_origin;
                traced_back "Unknown origin" ]).
      split; [now rewrite <- !app_assoc|].
      intros origin H. apply in_app_or in H. destruct H as [H|H].
      { unfold traced_back, attempt, loaded in H. record_in. }
      apply in_app_or in H. destruct H as [H|H]; [now elim (Hno origin)|].
      unfold traced_back, tracing, checking, no_origin in H. record_in.
      injection H as <-. split; [reflexivity|]. exists data. split; [reflexivity|]. now rewrite V.
    + exists ([attempt "data.csv"; loaded] ++ vw ++ [pipeline_error e]).
      split; [now rewrite <- !app_assoc|].
      intros origin H. apply in_app_or in H. destruct H as [H|H].
      { unfold traced_back, attempt, loaded in H. record_in. }
      apply in_app_or in H. destruct H as [H|H]; [now elim (Hno origin)|].
      unfold traced_back, pipeline_error in H. record_in.
  - destruct (is_FileNotFoundError (exc_type e));
      [|destruct (is_ParserError (exc_type e));
        [|destruct (is_Exception (exc_type e))]];
      cbn [snd state logfile]; (eexists; split; [reflexivity|]);
      intros origin H;
      unfold traced_back, attempt, file_not_found, parsing_error,
        pipeline_error in H; record_in.
Qed.

(** X14.  [main] prints one line exactly when it handles an exception, and
    the line carries the message of the error it has just logged; otherwise
    it prints nothing, and if it returned, the last record names the traced
    origin. *)
Theorem main_prints_the_logged_error
  (read_csv : string -> result DataFrame) (p : process) :
  (stdout (snd (main read_csv p)) = stdout p /\
   ((exists e, fst (main read_csv p) = Raise e) \/
    exists l, logfile (state (snd (main read_csv p))) =
              l ++ [traced_back "Unknown origin"])) \/
  (exists e l,
      fst (main read_csv p) = Return tt /\
      stdout (snd (main read_csv p)) =
      stdout p ++ [("An error occurred: " ++ exc_str e)%string] /\
      logfile (state (snd (main read_csv p))) = l ++ [pipeline_error e]).
Proof.
  destruct p as [[d0 pre] out]. rewrite main_run. cbn [state stdout].
  destruct (read_csv "data.csv") as [data|e].
  - destruct (validate_data (mkw data (pre ++ [attempt "data.csv"; loaded])))
      as [[u|e] w]; cbn [fst snd state stdout logfile].
    + left. split; [reflexivity|]. right.
      exists (logfile w ++ [tracing; checking data_load;
                            checking transformation_a;
                            checking transformation_b; no_origin]).
      now rewrite <- app_assoc.
    + right. exists e, (logfile w). auto.
  - destruct (is_FileNotFoundError (exc_type e)).
    { right. exists e, (pre ++ [attempt "data.csv"; file_not_found "data.csv"]).
      cbn. rewrite <- app_assoc. auto. }
    destruct (is_ParserError (exc_type e)).
    { right. exists parse_failure, (pre ++ [attempt "data.csv"; parsing_error e]).
      cbn. rewrite <- app_assoc. auto. }
    destruct (is_Exception (exc_type e)).
    + right. exists e, (pre ++ [attempt "data.csv"]).
      cbn. rewrite <- app_assoc. auto.
    + left. split; [reflexivity|]. left. now exists e.
Qed.

(** X15.  When [pd.read_csv] raises an [Exception], [main] stops there:
    it returns, the DataFrame bound to [data] is untouched, nothing is
    validated or traced (after the attempt only error records are
    written), and the line printed carries the message of the exception,
    or the fixed message of [load_data] for a [ParserError]. *)
Theorem main_stops_at_load_failure
  (read_csv : string -> result DataFrame) (p : process) (e : exn) :
  read_csv "data.csv" = Raise e ->
  is_Exception (exc_type e) = true ->
  fst (main read_csv p) = Return tt /\
  frame (state (snd (main read_csv p))) = frame (state p) /\
  (exists written,
      logfile (state (snd (main read_csv p))) =
      logfile (state p) ++ attempt "data.csv" :: written /\
      forall r, In r written -> levelname r = ERROR) /\
  stdout (snd (main read_csv p)) =
  stdout p ++
  [("An error occurred: " ++
    (if is_ParserError (exc_type e)
     then "Error parsing data, check the file format."
     else exc_str e))%string].
Proof.
  intros Hr Hx. destruct p as [[d0 pre] out]. rewrite main_run, Hr, Hx.
  pose proof (file_not_found_is_no_parser_error (exc_type e)) as Hfp.
  destruct (is_FileNotFoundError (exc_type e)).
  { rewrite (Hfp eq_refl). cbn. repeat split.
    eexists. split; [reflexivity|].
    intros r H. unfold file_not_found, pipeline_error in H.
    simpl in H. intuition (subst; reflexivity). }
  destruct (is_ParserError (exc_type e)); cbn; repeat split;
    (eexists; split; [reflexivity|]);
    intros r H; unfold parsing_error, pipeline_error in H;
    simpl in H; intuition (subst; reflexivity).
Qed.

Lemma main_without_file :
  fst (main no_file (mkp (mkw [] []) [])) = Return tt /\
  frame (state (snd (main no_file (mkp (mkw [] []) [])))) = [] /\
  (exists written,
      logfile (state (snd (main no_file (mkp (mkw [] []) [])))) =
      [] ++ attempt "data.csv" :: written /\
      forall r, In r written -> levelname r = ERROR) /\
  stdout (snd (main no_file (mkp (mkw [] []) []))) =
  [] ++ ["An error occurred: [Errno 2] No such file or directory: 'data.csv'"].
Proof.
  apply (@main_stops_at_load_failure no_file (mkp (mkw [] []) [])
           (mk_exn FileNotFoundError
              "[Errno 2] No such file or directory: 'data.csv'"));
    reflexivity.
Defined.
